(** * FindingWaldo: the RTMP ingest handler that records a stream as FLV

    A shallow embedding of [Handler] and its callbacks ([OnPublish],
    [OnSetDataFrame], [OnAudio], [OnVideo], [OnClose]) and of
    [processFrameWithCV] with its three placeholder stages, together with the
    parts of their environment the callbacks touch: Go's [path/filepath]
    (lexical path cleaning), [os] (a small file system with open-file
    descriptions) and the go-flv tag codec (kept abstract, as an interface). *)

From Stdlib Require Import ZArith NArith String Ascii List Lia.
From Stdlib.Strings Require Import Byte.
From stdpp Require Import base tactics option list strings gmap.

Local Open Scope string_scope.

(** ** path/filepath (Unix) *)

Module Filepath.

Definition Separator : ascii := "/"%char.

Definition IsPathSeparator (c : ascii) : bool := Ascii.eqb c Separator.

(** [strings.Split(s, "/")]: the elements between separators; never empty. *)
Fixpoint split_sep (s : string) : list string :=
  match s with
  | EmptyString => [EmptyString]
  | String c r =>
      if IsPathSeparator c then EmptyString :: split_sep r
      else match split_sep r with
           | [] => [String c EmptyString]
           | e :: es => String c e :: es
           end
  end.

(** [strings.Join(elem, "/")]. *)
Fixpoint strings_Join (elem : list string) : string :=
  match elem with
  | [] => EmptyString
  | [e] => e
  | e :: rest => e +:+ "/" +:+ strings_Join rest
  end.

(** One iteration of the loop of [Clean], on a whole path element.  [out] is
    the output buffer as the list of elements written so far, last one
    first.  An empty element and [.] are skipped; [..] removes the last
    element written when there is one to backtrack over, is dropped at the
    root, and is appended (and becomes the new backtrack limit) otherwise;
    any other element is appended. *)
Definition clean_step (rooted : bool) (out : list string) (e : string)
  : list string :=
  if String.eqb e "" then out
  else if String.eqb e "." then out
  else if String.eqb e ".." then
    match out with
    | top :: rest => if String.eqb top ".." then e :: out else rest
    | [] => if rooted then [] else [e]
    end
  else e :: out.

(** [filepath.Clean]: the shortest path name equivalent to [path] by purely
    lexical processing. *)
Definition Clean (path : string) : string :=
  match path with
  | EmptyString => "."
  | String c _ =>
      let rooted := IsPathSeparator c in
      let out := fold_left (clean_step rooted) (split_sep path) [] in
      let body := strings_Join (rev out) in
      if rooted then "/" +:+ body
      else if String.eqb body "" then "." else body
  end.

(** [filepath.Join]: leading empty elements are ignored, the rest is joined
    with the separator and cleaned; no element at all gives the empty
    string. *)
Fixpoint Join (elem : list string) : string :=
  match elem with
  | [] => ""
  | e :: rest => if String.eqb e "" then Join rest else Clean (strings_Join elem)
  end.

(** [filepath.Dir]: all but the last element of [path], cleaned. *)
Definition Dir (path : string) : string :=
  Clean (strings_Join (removelast (split_sep path) ++ [""])%list).

Definition has_sep (s : string) : bool :=
  existsb IsPathSeparator (list_ascii_of_string s).

(** A plain path element: a name, neither empty nor [.] nor [..], without a
    separator in it. *)
Definition is_plain (e : string) : bool :=
  negb (String.eqb e "") && negb (String.eqb e ".")
  && negb (String.eqb e "..") && negb (has_sep e).

(** [p] lies under the directory [base]: it is [base], a separator, and one
    or more plain elements, so that no element of it can lead upwards. *)
Definition under_base (base p : string) : Prop :=
  ∃ es : list string,
    es ≠ [] ∧ Forall (λ e, is_plain e = true) es
    ∧ p = base +:+ "/" +:+ strings_Join es.

End Filepath.

(** The path [OnPublish] records to: lines 53-56 of the handler. *)
Definition recording_path (PublishingName : string) : string :=
  Filepath.Join
    ["received/";
     Filepath.Clean (Filepath.Join ["/"; PublishingName +:+ ".flv"])].

(** ** Errors, byte readers *)

Inductive error : Type :=
| EOF                                   (* io.EOF *)
| ErrUnexpectedEOF                      (* io.ErrUnexpectedEOF *)
| ErrClosed                             (* os.ErrClosed: file already closed *)
| ErrInvalid                            (* os.ErrInvalid *)
| ENOENT | EISDIR | ENOTDIR | EIO       (* syscall errors *)
| ErrCodec (msg : string)               (* an error of the tag codec *)
| Wrap (cause : error) (msg : string).  (* errors.Wrap *)

Inductive result (A : Type) : Type :=
| Success (a : A)
| Failure (e : error).
Arguments Success {A} a.
Arguments Failure {A} e.

Abbreviation bytes := (list byte).

(** An [io.Reader] over memory: the bytes it still delivers, and how it ends
    after them ([None] is a clean [io.EOF], [Some e] a read error). *)
Record Reader : Type := { rd_bytes : bytes; rd_err : option error }.

(** [bytes.NewReader] and [bytes.NewBuffer] read as a stream. *)
Definition bytes_NewReader (b : bytes) : Reader :=
  {| rd_bytes := b; rd_err := None |}.
Definition bytes_NewBuffer (b : bytes) : Reader := bytes_NewReader b.

(** [io.ReadAll], and [io.Copy] into a fresh [bytes.Buffer]: everything up to
    the end of the stream, or the read error. *)
Definition io_ReadAll (r : Reader) : result bytes :=
  match rd_err r with
  | None => Success (rd_bytes r)
  | Some e => Failure e
  end.
Definition io_Copy (src : Reader) : result bytes := io_ReadAll src.

(** ** go-flv: tags *)

Definition TagTypeAudio : Z := 8.
Definition TagTypeVideo : Z := 9.
Definition TagTypeScriptData : Z := 18.

Definition FrameTypeKeyFrame : Z := 1.
Definition CodecIDAVC : Z := 7.
Definition AVCPacketTypeSequenceHeader : Z := 0.
Definition AVCPacketTypeNALU : Z := 1.

Definition FlagsVideo : Z := 1.
Definition FlagsAudio : Z := 4.

Definition SoundFormatAAC : Z := 10.

(** [AACPacketType] is read for AAC only, and zero otherwise. *)
Record AudioData : Type := {
  SoundFormat : Z; SoundRate : Z; SoundSize : Z; SoundType : Z;
  AACPacketType : Z;
  audio_Data : Reader
}.

(** The decoder of video data reads the AVC packet header itself: for AVC the
    packet type and the composition time are fields of the tag and [Data] is
    what follows them; for the other codecs both are zero.  (The fields are
    [AVCPacketType] and [CompositionTime] in Go, as in [AVCVideoPacket].) *)
Record VideoData : Type := {
  FrameType : Z; CodecID : Z;
  video_AVCPacketType : Z; video_CompositionTime : Z;
  video_Data : Reader
}.

Record AVCVideoPacket : Type := {
  AVCPacketType : Z; CompositionTime : Z;
  avc_Data : Reader
}.

(** The [Data interface{}] of a tag, as the closed sum the encoder accepts. *)
Inductive TagData (S : Type) : Type :=
| IsScriptData (script : S)
| IsAudioData (audio : AudioData)
| IsVideoData (video : VideoData).
Arguments IsScriptData {S} script.
Arguments IsAudioData {S} audio.
Arguments IsVideoData {S} video.

Record FlvTag (S : Type) : Type := {
  TagType : Z;
  Timestamp : Z;          (* uint32 *)
  StreamID : Z;           (* zero value: the handler never sets it *)
  Data : TagData S
}.
Arguments TagType {S} _.
Arguments Timestamp {S} _.
Arguments StreamID {S} _.
Arguments Data {S} _.

(** The functions of go-flv the handler calls.  The library is not part of the
    repository, so the handler is modelled over this interface and every
    theorem about it holds whatever the codec does; [Wire.codec] below is an
    implementation of it to run the handler on. *)
Class FlvCodec : Type := {
  ScriptData : Type;
  DecodeScriptData : Reader → result ScriptData;
  DecodeAudioData : Reader → result AudioData;
  DecodeVideoData : Reader → result VideoData;
  DecodeAVCVideoPacket : Reader → result AVCVideoPacket;
  EncodeAVCVideoPacket : AVCVideoPacket → result bytes;
  (* the file header [flv.NewEncoder] writes for the given flags *)
  EncodeHeader : Z → bytes;
  (* the bytes [Encoder.Encode] writes for a tag *)
  EncodeFlvTag : FlvTag ScriptData → result bytes
}.

(** ** os: files *)

Definition O_WRONLY : Z := 0x1.
Definition O_CREATE : Z := 0x40.
Definition O_TRUNC : Z := 0x200.

Definition has_flag (flag bit : Z) : bool := negb (Z.land flag bit =? 0)%Z.

(** An open file description, what an [*os.File] points to. *)
Record File : Type := {
  f_name : string;
  f_offset : nat;
  f_closed : bool
}.

(** The world outside the handler: regular files by path, directories, the
    open files (an [*os.File] is an index into them), and the I/O faults to
    come, one entry per write ([true]: that write fails). *)
Record World : Type := {
  files : gmap string bytes;
  dirs : gset string;
  open_files : list File;
  faults : list bool
}.

Definition set_files (fs : gmap string bytes) (w : World) : World :=
  {| files := fs; dirs := dirs w; open_files := open_files w; faults := faults w |}.
Definition set_dirs (ds : gset string) (w : World) : World :=
  {| files := files w; dirs := ds; open_files := open_files w; faults := faults w |}.
Definition set_open_files (os : list File) (w : World) : World :=
  {| files := files w; dirs := dirs w; open_files := os; faults := faults w |}.
Definition set_faults (fl : list bool) (w : World) : World :=
  {| files := files w; dirs := dirs w; open_files := open_files w; faults := fl |}.

(** [os.MkdirAll]: creates the directory and its parents; an existing
    directory is no error, a regular file in the way is. *)
Fixpoint mkdir_all (parent : list string) (elems : list string) (w : World)
  : option error * World :=
  match elems with
  | [] => (None, w)
  | e :: rest =>
      let p := Filepath.strings_Join (parent ++ [e])%list in
      match files w !! p with
      | Some _ => (Some ENOTDIR, w)
      | None => mkdir_all (parent ++ [e])%list rest (set_dirs ({[p]} ∪ dirs w) w)
      end
  end.

Definition os_MkdirAll (path : string) (w : World) : option error * World :=
  mkdir_all [] (Filepath.split_sep (Filepath.Clean path)) w.

(** [os.OpenFile] for writing.  The parent directory must exist; a missing
    file is created when [O_CREATE] is given; an existing file is emptied
    only when [O_TRUNC] is given.  The new description starts at offset 0. *)
Definition os_OpenFile (name : string) (flag : Z) (w : World)
  : result nat * World :=
  let parent := Filepath.Dir name in
  if decide (name ∈ dirs w) then (Failure EISDIR, w)
  else if negb (String.eqb parent ".") && negb (bool_decide (parent ∈ dirs w))
  then (Failure ENOENT, w)
  else
    let opened (fs : gmap string bytes) :=
      (Success (length (open_files w)),
       set_open_files
         (open_files w ++ [{| f_name := name; f_offset := 0; f_closed := false |}])%list
         (set_files fs w)) in
    match files w !! name with
    | None =>
        if has_flag flag O_CREATE then opened (<[name := []]> (files w))
        else (Failure ENOENT, w)
    | Some _ =>
        if has_flag flag O_TRUNC then opened (<[name := []]> (files w))
        else opened (files w)
    end.

(** Writing [b] at offset [off] of a file holding [old]: a hole before [off]
    reads as zeros, what lies behind the written range stays. *)
Definition write_at (off : nat) (b old : bytes) : bytes :=
  (take off (old ++ replicate (off - length old) x00)
   ++ b ++ drop (off + length b) old)%list.

(** [File.Write]: at the current offset, which it advances. *)
Definition os_Write (f : nat) (b : bytes) (w : World) : option error * World :=
  match open_files w !! f with
  | None => (Some ErrInvalid, w)
  | Some d =>
      if f_closed d then (Some ErrClosed, w)
      else match faults w with
           | true :: later => (Some EIO, set_faults later w)
           | _ =>
               let old := default [] (files w !! f_name d) in
               let d' := {| f_name := f_name d;
                            f_offset := f_offset d + length b;
                            f_closed := false |} in
               (None,
                set_faults (tail (faults w))
                  (set_open_files (<[f := d']> (open_files w))
                     (set_files
                        (<[f_name d := write_at (f_offset d) b old]> (files w))
                        w)))
           end
  end.

(** [File.Close]: a second close is an error, not a fault. *)
Definition os_Close (f : nat) (w : World) : option error * World :=
  match open_files w !! f with
  | None => (Some ErrInvalid, w)
  | Some d =>
      if f_closed d then (Some ErrClosed, w)
      else
        let d' := {| f_name := f_name d; f_offset := f_offset d;
                     f_closed := true |} in
        (None, set_open_files (<[f := d']> (open_files w)) w)
  end.

(** ** The handler *)

(** [flv.Encoder]: the writer it encodes to. *)
Record Encoder : Type := { enc_w : nat }.

(** [Handler]: both fields are pointers, [None] is [nil]. *)
Record Handler : Type := {
  flvFile : option nat;
  flvEnc : option Encoder
}.

(** What [log.Printf] is called with. *)
Inductive LogEntry : Type :=
| LogNewConnection
| LogRecievingStream (name : string)
| LogSavingTo (p : string)
| LogScriptDecodeFailed (e : error)
| LogScriptWriteFailed (e : error)
| LogAudioWriteFailed (e : error)
| LogVideoProcessFailed (e : error)
| LogVideoWriteFailed (e : error)
| LogConnectionClosed.

(** A call either returns or panics (a nil-pointer dereference). *)
Inductive outcome (A : Type) : Type :=
| Returns (a : A)
| Panics.
Arguments Returns {A} a.
Arguments Panics {A}.

Record Sys : Type := { hnd : Handler; world : World }.

(** A method of [*Handler]: it reads and updates the handler and the world,
    and emits log lines. *)
Definition M (A : Type) : Type := Sys → outcome A * Sys * list LogEntry.

Global Instance M_ret : MRet M := λ A a s, (Returns a, s, []).

Global Instance M_bind : MBind M := λ A B k m s,
  match m s with
  | (Returns a, s1, l1) =>
      match k a s1 with (r, s2, l2) => (r, s2, (l1 ++ l2)%list) end
  | (Panics, s1, l1) => (Panics, s1, l1)
  end.

Definition log_Printf (e : LogEntry) : M unit := λ s, (Returns tt, s, [e]).

Definition panic {A : Type} : M A := λ s, (Panics, s, []).

Definition get_handler : M Handler := λ s, (Returns (hnd s), s, []).

Definition set_flvFile (f : option nat) : M unit := λ s,
  (Returns tt,
   {| hnd := {| flvFile := f; flvEnc := flvEnc (hnd s) |}; world := world s |},
   []).

Definition set_flvEnc (e : option Encoder) : M unit := λ s,
  (Returns tt,
   {| hnd := {| flvFile := flvFile (hnd s); flvEnc := e |}; world := world s |},
   []).

(** A call into the operating system. *)
Definition sys {A : Type} (f : World → A * World) : M A := λ s,
  match f (world s) with
  | (a, w) => (Returns a, {| hnd := hnd s; world := w |}, [])
  end.

Section HandlerModel.

Context `{codec : FlvCodec}.

Local Abbreviation Tag := (FlvTag ScriptData).

(** [flv.NewEncoder]: writes the file header. *)
Definition flv_NewEncoder (f : nat) (flags : Z) (w : World)
  : result Encoder * World :=
  match os_Write f (EncodeHeader flags) w with
  | (Some e, w') => (Failure e, w')
  | (None, w') => (Success {| enc_w := f |}, w')
  end.

(** [(enc *Encoder).Encode]: through a nil encoder it dereferences nil. *)
Definition Encoder_Encode (enc : option Encoder) (t : Tag) : M (option error) :=
  match enc with
  | None => panic
  | Some e =>
      match EncodeFlvTag t with
      | Failure err => mret (Some err)
      | Success b => sys (os_Write (enc_w e) b)
      end
  end.

Definition OnConnect (timestamp : Z) : M (option error) :=
  log_Printf LogNewConnection;;
  mret None.

Definition OnCreateStream (timestamp : Z) : M (option error) :=
  mret None.

Definition OnPublish (timestamp : Z) (PublishingName : string)
  : M (option error) :=
  log_Printf (LogRecievingStream PublishingName);;
  sys (os_MkdirAll "received");;
  let p := recording_path PublishingName in
  log_Printf (LogSavingTo p);;
  r ← sys (os_OpenFile p (Z.lor O_CREATE O_WRONLY));
  match r with
  | Failure err => mret (Some (Wrap err "Failed to create flv file"))
  | Success f =>
      set_flvFile (Some f);;
      r ← sys (flv_NewEncoder f (Z.lor FlagsAudio FlagsVideo));
      match r with
      | Failure err =>
          sys (os_Close f);;
          mret (Some (Wrap err "Failed to create flv encoder"))
      | Success enc =>
          set_flvEnc (Some enc);;
          mret None
      end
  end.

Definition OnSetDataFrame (timestamp : Z) (Payload : bytes)
  : M (option error) :=
  let r := bytes_NewReader Payload in
  match DecodeScriptData r with
  | Failure err =>
      log_Printf (LogScriptDecodeFailed err);;
      mret None
  | Success script =>
      h ← get_handler;
      werr ← Encoder_Encode (flvEnc h)
               {| TagType := TagTypeScriptData; Timestamp := timestamp;
                  StreamID := 0; Data := IsScriptData script |};
      match werr with
      | Some err => log_Printf (LogScriptWriteFailed err)
      | None => mret tt
      end;;
      mret None
  end.

Definition OnAudio (timestamp : Z) (payload : Reader) : M (option error) :=
  match DecodeAudioData payload with
  | Failure err => mret (Some err)
  | Success audio =>
      match io_Copy (audio_Data audio) with
      | Failure err => mret (Some err)
      | Success flvBody =>
          let audio :=
            {| SoundFormat := SoundFormat audio; SoundRate := SoundRate audio;
               SoundSize := SoundSize audio; SoundType := SoundType audio;
               AACPacketType := AACPacketType audio;
               audio_Data := bytes_NewBuffer flvBody |} in
          h ← get_handler;
          werr ← Encoder_Encode (flvEnc h)
                   {| TagType := TagTypeAudio; Timestamp := timestamp;
                      StreamID := 0; Data := IsAudioData audio |};
          match werr with
          | Some err => log_Printf (LogAudioWriteFailed err)
          | None => mret tt
          end;;
          mret None
      end
  end.

Definition extractFrameFromNALU (naluData : Reader) : result bytes :=
  io_ReadAll naluData.

Definition applyComputerVision (frameData : bytes) : result bytes :=
  Success frameData.

Definition packFrameToNALU (frameData : bytes) : result bytes :=
  Success frameData.

Definition processFrameWithCV (frameData : bytes) (codecID : Z)
  : result bytes :=
  if (codecID =? CodecIDAVC)%Z then
    match DecodeAVCVideoPacket (bytes_NewReader frameData) with
    | Failure err => Failure err
    | Success avc =>
        if (AVCPacketType avc =? AVCPacketTypeNALU)%Z then
          match extractFrameFromNALU (avc_Data avc) with
          | Failure err => Failure err
          | Success frame =>
              match applyComputerVision frame with
              | Failure err => Failure err
              | Success processedFrame =>
                  match packFrameToNALU processedFrame with
                  | Failure err => Failure err
                  | Success processedNALU =>
                      let avc :=
                        {| AVCPacketType := AVCPacketType avc;
                           CompositionTime := CompositionTime avc;
                           avc_Data := bytes_NewReader processedNALU |} in
                      match EncodeAVCVideoPacket avc with
                      | Failure err => Failure err
                      | Success avcBuffer => Success avcBuffer
                      end
                  end
              end
          end
        else Success frameData
    end
  else Success frameData.

Definition OnVideo (timestamp : Z) (payload : Reader) : M (option error) :=
  match DecodeVideoData payload with
  | Failure err => mret (Some err)
  | Success video =>
      match io_Copy (video_Data video) with
      | Failure err => mret (Some err)
      | Success flvBody =>
          flvBody ←
            (if (FrameType video =? FrameTypeKeyFrame)%Z then
               match processFrameWithCV flvBody (CodecID video) with
               | Failure err =>
                   log_Printf (LogVideoProcessFailed err);;
                   mret flvBody
               | Success processedData => mret processedData
               end
             else mret flvBody);
          let video :=
            {| FrameType := FrameType video; CodecID := CodecID video;
               video_AVCPacketType := video_AVCPacketType video;
               video_CompositionTime := video_CompositionTime video;
               video_Data := bytes_NewBuffer flvBody |} in
          h ← get_handler;
          werr ← Encoder_Encode (flvEnc h)
                   {| TagType := TagTypeVideo; Timestamp := timestamp;
                      StreamID := 0; Data := IsVideoData video |};
          match werr with
          | Some err => log_Printf (LogVideoWriteFailed err)
          | None => mret tt
          end;;
          mret None
      end
  end.

Definition OnClose : M unit :=
  log_Printf LogConnectionClosed;;
  h ← get_handler;
  match flvFile h with
  | Some f => sys (os_Close f);; mret tt
  | None => mret tt
  end.

(** *** The transform stage disabled

    [OnVideo] without lines 132-144: what the handler writes when no frame
    is ever handed to [processFrameWithCV]. *)
Definition OnVideo_stage_disabled (timestamp : Z) (payload : Reader)
  : M (option error) :=
  match DecodeVideoData payload with
  | Failure err => mret (Some err)
  | Success video =>
      match io_Copy (video_Data video) with
      | Failure err => mret (Some err)
      | Success flvBody =>
          let video :=
            {| FrameType := FrameType video; CodecID := CodecID video;
               video_AVCPacketType := video_AVCPacketType video;
               video_CompositionTime := video_CompositionTime video;
               video_Data := bytes_NewBuffer flvBody |} in
          h ← get_handler;
          werr ← Encoder_Encode (flvEnc h)
                   {| TagType := TagTypeVideo; Timestamp := timestamp;
                      StreamID := 0; Data := IsVideoData video |};
          match werr with
          | Some err => log_Printf (LogVideoWriteFailed err)
          | None => mret tt
          end;;
          mret None
      end
  end.

(** *** A session as the transport drives it *)

Inductive Event : Type :=
| EvConnect (timestamp : Z)
| EvCreateStream (timestamp : Z)
| EvPublish (timestamp : Z) (PublishingName : string)
| EvSetDataFrame (timestamp : Z) (Payload : bytes)
| EvAudio (timestamp : Z) (payload : Reader)
| EvVideo (timestamp : Z) (payload : Reader)
| EvClose.

Definition dispatch (ev : Event) : M (option error) :=
  match ev with
  | EvConnect ts => OnConnect ts
  | EvCreateStream ts => OnCreateStream ts
  | EvPublish ts name => OnPublish ts name
  | EvSetDataFrame ts p => OnSetDataFrame ts p
  | EvAudio ts p => OnAudio ts p
  | EvVideo ts p => OnVideo ts p
  | EvClose => OnClose;; mret None
  end.

(** The callbacks of a list of messages, one after the other, with what each
    returned. *)
Fixpoint serve (evs : list Event) : M (list (option error)) :=
  match evs with
  | [] => mret []
  | ev :: rest =>
      r ← dispatch ev;
      rs ← serve rest;
      mret (r :: rs)
  end.

(** The tag an audio or video message stands for: its decoded fields, its
    timestamp, and the body the handler keeps for it. *)
Definition event_tag (ev : Event) : option Tag :=
  match ev with
  | EvAudio ts payload =>
      match DecodeAudioData payload with
      | Success audio =>
          match io_Copy (audio_Data audio) with
          | Success body =>
              Some {| TagType := TagTypeAudio; Timestamp := ts; StreamID := 0;
                      Data := IsAudioData
                        {| SoundFormat := SoundFormat audio;
                           SoundRate := SoundRate audio;
                           SoundSize := SoundSize audio;
                           SoundType := SoundType audio;
                           AACPacketType := AACPacketType audio;
                           audio_Data := bytes_NewBuffer body |} |}
          | Failure _ => None
          end
      | Failure _ => None
      end
  | EvVideo ts payload =>
      match DecodeVideoData payload with
      | Success video =>
          match io_Copy (video_Data video) with
          | Success body =>
              let body' :=
                if (FrameType video =? FrameTypeKeyFrame)%Z then
                  match processFrameWithCV body (CodecID video) with
                  | Success processed => processed
                  | Failure _ => body
                  end
                else body in
              Some {| TagType := TagTypeVideo; Timestamp := ts; StreamID := 0;
                      Data := IsVideoData
                        {| FrameType := FrameType video;
                           CodecID := CodecID video;
                           video_AVCPacketType := video_AVCPacketType video;
                           video_CompositionTime := video_CompositionTime video;
                           video_Data := bytes_NewBuffer body' |} |}
          | Failure _ => None
          end
      | Failure _ => None
      end
  | _ => None
  end.

(** The bytes of the tag of a message, as the encoder frames it. *)
Definition event_bytes (ev : Event) : option bytes :=
  match event_tag ev with
  | Some t => match EncodeFlvTag t with Success b => Some b | Failure _ => None end
  | None => None
  end.

End HandlerModel.

(** The session records to [path] and has written [written] so far: its
    encoder writes to an open file of that name, the file starts with
    [written], and the write offset is right behind it. *)
Definition recording (path : string) (written : bytes) (s : Sys) : Prop :=
  ∃ (enc : Encoder) (d : File) (rest : bytes),
    flvEnc (hnd s) = Some enc
    ∧ open_files (world s) !! enc_w enc = Some d
    ∧ f_closed d = false
    ∧ f_name d = path
    ∧ f_offset d = length written
    ∧ files (world s) !! path = Some (written ++ rest)%list.

(** No write among the next [n] fails. *)
Definition no_faults (n : nat) (w : World) : Prop :=
  Forall (λ b, b = false) (take n (faults w)).

(** The handler of a fresh connection: [&Handler{}]. *)
Definition new_handler : Handler := {| flvFile := None; flvEnc := None |}.

(** ** An implementation of the codec: the FLV wire format

    The tag layout of the FLV file format as go-flv reads and writes it.  It
    instantiates [FlvCodec] so that the handler runs on concrete payloads.
    Audio data carries its AAC packet type and video data its AVC packet
    header, both read by the decoder of the tag.  Script data is the AMF0
    fragment of numbers, booleans, strings and null inside objects and ECMA
    arrays; a payload outside the fragment is an error here.

    Two things the interface cannot say are fixed by convention.  The library
    writes the four zero bytes of the first previous-tag size with the first
    tag and not with the nine bytes of the header: [encodeHeader] holds all
    thirteen, so from the first tag on the file is the library's, and between
    a publish and its first tag it is four bytes ahead.  And the library
    keeps script data in Go maps, which it walks in no fixed order: the lists
    here, which keep one entry per key, are encoded in the order of the
    payload, one of the orders the library can take. *)

Module Wire.

Local Close Scope string_scope.

Definition Z_of_byte (b : byte) : Z := Z.of_N (Byte.to_N b).

Definition byte_of_Z (z : Z) : byte :=
  default x00 (Byte.of_N (Z.to_N (z mod 256))).

(** Big-endian unsigned numbers. *)
Definition be_decode (b : bytes) : Z :=
  fold_left (λ acc x, acc * 256 + Z_of_byte x)%Z b 0%Z.

Definition be_encode (width : nat) (z : Z) : bytes :=
  map (λ i, byte_of_Z (Z.shiftr z (8 * Z.of_nat i))) (rev (seq 0 width)).

(** [io.ReadAtLeast(r, buf, n)] for a buffer of [n] bytes. *)
Definition io_ReadAtLeast (r : Reader) (n : nat) : result (bytes * Reader) :=
  if decide (n ≤ length (rd_bytes r)) then
    Success (take n (rd_bytes r),
             {| rd_bytes := drop n (rd_bytes r); rd_err := rd_err r |})
  else
    match rd_err r, rd_bytes r with
    | Some e, _ => Failure e
    | None, [] => Failure EOF
    | None, _ :: _ => Failure ErrUnexpectedEOF
    end.

(** Audio data: one byte of format, rate, size and type, and for AAC one
    more byte, the packet type. *)
Definition decodeAudioData (r : Reader) : result AudioData :=
  match io_ReadAtLeast r 1 with
  | Failure e => Failure e
  | Success (buf, r') =>
      let b := Z_of_byte (nth 0 buf x00) in
      let soundFormat := Z.shiftr (Z.land b 0xf0) 4 in
      let audio (aacPacketType : Z) (data : Reader) :=
        {| SoundFormat := soundFormat;
           SoundRate := Z.shiftr (Z.land b 0x0c) 2;
           SoundSize := Z.shiftr (Z.land b 0x02) 1;
           SoundType := Z.land b 0x01;
           AACPacketType := aacPacketType;
           audio_Data := data |} in
      if (soundFormat =? SoundFormatAAC)%Z then
        match io_ReadAtLeast r' 1 with
        | Failure e => Failure e
        | Success (buf', r'') => Success (audio (Z_of_byte (nth 0 buf' x00)) r'')
        end
      else Success (audio 0%Z r')
  end.

(** Video data: one byte of frame type and codec, and for AVC four more, the
    packet type and the composition time. *)
Definition decodeVideoData (r : Reader) : result VideoData :=
  match io_ReadAtLeast r 1 with
  | Failure e => Failure e
  | Success (buf, r') =>
      let b := Z_of_byte (nth 0 buf x00) in
      let codecID := Z.land b 0x0f in
      let video (avcPacketType compositionTime : Z) (data : Reader) :=
        {| FrameType := Z.shiftr (Z.land b 0xf0) 4;
           CodecID := codecID;
           video_AVCPacketType := avcPacketType;
           video_CompositionTime := compositionTime;
           video_Data := data |} in
      if (codecID =? CodecIDAVC)%Z then
        match io_ReadAtLeast r' 4 with
        | Failure e => Failure e
        | Success (hdr, r'') =>
            Success (video (Z_of_byte (nth 0 hdr x00)) (be_decode (drop 1 hdr)) r'')
        end
      else Success (video 0%Z 0%Z r')
  end.

Definition decodeAVCVideoPacket (r : Reader) : result AVCVideoPacket :=
  match io_ReadAtLeast r 4 with
  | Failure e => Failure e
  | Success (buf, r') =>
      Success {| AVCPacketType := Z_of_byte (nth 0 buf x00);
                 CompositionTime := be_decode (drop 1 buf);
                 avc_Data := r' |}
  end.

Definition encodeAVCVideoPacket (p : AVCVideoPacket) : result bytes :=
  match io_ReadAll (avc_Data p) with
  | Failure e => Failure e
  | Success body =>
      Success (byte_of_Z (AVCPacketType p)
               :: be_encode 3 (CompositionTime p) ++ body)%list
  end.

(** Signature, version, flags, header length 9, and the size 0 of the tag
    before the first. *)
Definition encodeHeader (flags : Z) : bytes :=
  ([x46; x4c; x56; x01; byte_of_Z flags] ++ be_encode 4 9 ++ be_encode 4 0)%list.

Inductive AmfValue : Type :=
| AmfNumber (ieee754 : bytes)
| AmfBoolean (b : byte)
| AmfString (s : bytes)
| AmfNull.

Definition ECMAArray : Type := list (bytes * AmfValue).

(** A string without its marker: 16 bits of length, then the bytes. *)
Definition decode_utf8 (b : bytes) : result (bytes * bytes) :=
  match b with
  | hi :: lo :: rest =>
      let n := Z.to_nat (be_decode [hi; lo]) in
      if decide (n ≤ length rest) then Success (take n rest, drop n rest)
      else Failure ErrUnexpectedEOF
  | _ => Failure ErrUnexpectedEOF
  end.

Definition encode_utf8 (s : bytes) : bytes :=
  (be_encode 2 (Z.of_nat (length s)) ++ s)%list.

Definition decode_value (b : bytes) : result (AmfValue * bytes) :=
  match b with
  | [] => Failure EOF
  | m :: rest =>
      match Z_of_byte m with
      | 0%Z =>
          if decide (8 ≤ length rest)
          then Success (AmfNumber (take 8 rest), drop 8 rest)
          else Failure ErrUnexpectedEOF
      | 1%Z =>
          match rest with
          | v :: rest' => Success (AmfBoolean v, rest')
          | [] => Failure ErrUnexpectedEOF
          end
      | 2%Z =>
          match decode_utf8 rest with
          | Success (s, rest') => Success (AmfString s, rest')
          | Failure e => Failure e
          end
      | 5%Z => Success (AmfNull, rest)
      | _ => Failure (ErrCodec "amf0: unsupported marker")
      end
  end.

Definition encode_value (v : AmfValue) : bytes :=
  match v with
  | AmfNumber raw => x00 :: raw
  | AmfBoolean b => [x01; b]
  | AmfString s => x02 :: encode_utf8 s
  | AmfNull => [x05]
  end.

#[global] Instance byte_eq_decision : EqDecision byte := Byte.byte_eq_dec.

(** A map as a list with one entry per key: a key that comes again takes the
    place of the entry it had. *)
Fixpoint assign {V : Type} (k : bytes) (v : V) (m : list (bytes * V))
  : list (bytes * V) :=
  match m with
  | [] => [(k, v)]
  | (k', v') :: m' =>
      if decide (k = k') then (k, v) :: m' else (k', v') :: assign k v m'
  end.

Definition entries {V : Type} (ps : list (bytes * V)) : list (bytes * V) :=
  fold_left (λ m p, assign p.1 p.2 m) ps [].

(** The properties of an object or an ECMA array, up to the object-end
    marker, in the order of the payload. *)
Fixpoint decode_props (fuel : nat) (b : bytes) : result (ECMAArray * bytes) :=
  match fuel with
  | O => Failure ErrUnexpectedEOF
  | S fuel' =>
      match decode_utf8 b with
      | Failure e => Failure e
      | Success ([], x09 :: rest) => Success ([], rest)
      | Success (name, rest) =>
          match decode_value rest with
          | Failure e => Failure e
          | Success (v, rest') =>
              match decode_props fuel' rest' with
              | Failure e => Failure e
              | Success (ps, rest'') => Success ((name, v) :: ps, rest'')
              end
          end
      end
  end.

Definition encode_props (ps : ECMAArray) : bytes :=
  (concat (map (λ p, encode_utf8 (fst p) ++ encode_value (snd p)) ps)
   ++ [x00; x00; x09])%list.

(** Script data: pairs of a string and an ECMA array (with its count of
    entries, which is not looked at) or an object, until the payload ends.
    [kv] holds the pairs read so far. *)
Fixpoint decode_pairs (fuel : nat) (kv : list (bytes * ECMAArray)) (b : bytes)
  : result (list (bytes * ECMAArray)) :=
  match fuel, b with
  | _, [] => Success kv
  | O, _ => Failure ErrUnexpectedEOF
  | S fuel', x02 :: rest =>
      match decode_utf8 rest with
      | Failure e => Failure (Wrap e "Failed to decode key")
      | Success (key, marker :: rest') =>
          let props :=
            match marker with
            | x08 =>
                if decide (4 ≤ length rest')
                then decode_props (length rest') (drop 4 rest')
                else Failure ErrUnexpectedEOF
            | x03 => decode_props (length rest') rest'
            | _ => Failure (ErrCodec "amf0: not an ECMA array")
            end in
          match props with
          | Failure e => Failure (Wrap e "Failed to decode value")
          | Success (arr, rest'') =>
              decode_pairs fuel' (assign key (entries arr) kv) rest''
          end
      | Success (_, []) => Failure (Wrap EOF "Failed to decode value")
      end
  | S _, _ :: _ => Failure (Wrap (ErrCodec "amf0: not a string") "Failed to decode key")
  end.

Definition decodeScriptData (r : Reader) : result (list (bytes * ECMAArray)) :=
  match io_ReadAll r with
  | Failure e => Failure (Wrap e "Failed to decode key")
  | Success b => decode_pairs (length b) [] b
  end.

Definition encodeScriptData (kv : list (bytes * ECMAArray)) : bytes :=
  concat (map (λ p, x02 :: encode_utf8 (fst p)
                    ++ x08 :: be_encode 4 (Z.of_nat (length (snd p)))
                    ++ encode_props (snd p))%list kv).

Definition encodeTagData (d : TagData (list (bytes * ECMAArray))) : result bytes :=
  match d with
  | IsScriptData script => Success (encodeScriptData script)
  | IsAudioData audio =>
      match io_ReadAll (audio_Data audio) with
      | Failure e => Failure e
      | Success body =>
          let b := Z.lor (Z.lor (Z.shiftl (SoundFormat audio) 4)
                                (Z.shiftl (SoundRate audio) 2))
                         (Z.lor (Z.shiftl (SoundSize audio) 1) (SoundType audio)) in
          let aac := if (SoundFormat audio =? SoundFormatAAC)%Z
                     then [byte_of_Z (AACPacketType audio)] else [] in
          Success (byte_of_Z b :: aac ++ body)%list
      end
  | IsVideoData video =>
      match io_ReadAll (video_Data video) with
      | Failure e => Failure e
      | Success body =>
          let b := Z.lor (Z.shiftl (FrameType video) 4) (CodecID video) in
          let avc := if (CodecID video =? CodecIDAVC)%Z
                     then (byte_of_Z (video_AVCPacketType video)
                           :: be_encode 3 (video_CompositionTime video))
                     else [] in
          Success (byte_of_Z b :: avc ++ body)%list
      end
  end.

(** A tag: type, 24 bits of data size, the timestamp as its low 24 bits and
    then its high 8, the stream id, the data, and the size of the tag. *)
Definition encodeFlvTag (t : FlvTag (list (bytes * ECMAArray))) : result bytes :=
  match encodeTagData (Data t) with
  | Failure e => Failure e
  | Success body =>
      Success ([byte_of_Z (TagType t)]
               ++ be_encode 3 (Z.of_nat (length body))
               ++ be_encode 3 (Z.land (Timestamp t) 0xffffff)
               ++ [byte_of_Z (Z.shiftr (Timestamp t) 24)]
               ++ be_encode 3 (StreamID t)
               ++ body
               ++ be_encode 4 (11 + Z.of_nat (length body)))%list
  end.

#[global] Instance codec : FlvCodec := {|
  ScriptData := list (bytes * ECMAArray);
  DecodeScriptData := decodeScriptData;
  DecodeAudioData := decodeAudioData;
  DecodeVideoData := decodeVideoData;
  DecodeAVCVideoPacket := decodeAVCVideoPacket;
  EncodeAVCVideoPacket := encodeAVCVideoPacket;
  EncodeHeader := encodeHeader;
  EncodeFlvTag := encodeFlvTag
|}.

(** A machine with the working directory empty and nothing open. *)
Definition empty_world : World :=
  {| files := ∅; dirs := ∅; open_files := []; faults := [] |}.

Definition fresh : Sys := {| hnd := new_handler; world := empty_world |}.

(** A machine that kept a recording of twenty bytes from an earlier run. *)
Definition stale_world : World :=
  {| files := {[ "received/stream1.flv"%string := replicate 20 xff ]};
     dirs := {[ "received"%string ]};
     open_files := [];
     faults := [] |}.

Definition stale : Sys := {| hnd := new_handler; world := stale_world |}.

(** The session after [stream1] is published on the empty machine, and after
    the connection is then closed. *)
Definition published : Sys := (OnPublish 0 "stream1" fresh).1.2.

Definition closed : Sys := (OnClose published).1.2.

(** Payloads: a key frame of AVC with two bytes of NAL-unit data, an inter
    frame of AVC, a key frame carrying an AVC sequence header of two bytes, a
    key frame carrying an AVC decoder configuration, a key frame of another
    codec, a frame of AAC audio, script data with one property, and a byte
    that is no script data. *)
Definition key_avc_nalu : Reader :=
  bytes_NewReader [x17; x01; x00; x00; x00; xaa; xbb].

Definition key_avc_config : Reader :=
  bytes_NewReader [x17; x00; x00; x00; x00; x01; x64; x00; x1f; xff; xe0; x00].

Definition inter_avc : Reader :=
  bytes_NewReader [x27; x01; x00; x00; x00; x65; x88].

Definition key_avc_seqhdr : Reader :=
  bytes_NewReader [x17; x00; x00; x00; x00; x01; x64].

Definition key_h263 : Reader := bytes_NewReader [x12; x00; x84].

Definition aac_audio : Reader := bytes_NewReader [xaf; x01; x21; x10].

Definition script_ok : bytes :=
  [x02; x00; x01; x41; x08; x00; x00; x00; x01;
   x00; x01; x42; x01; x01; x00; x00; x09].

Definition script_bad : bytes := [xff].

(** Three messages whose timestamps run backwards. *)
Definition backwards : list Event :=
  [EvVideo 40 inter_avc; EvAudio 10 aac_audio; EvVideo 5 key_avc_seqhdr].

End Wire.

(** ** What a message adds to the recording *)

Section SessionModel.

Context `{codec : FlvCodec}.

(** The bytes a message makes the encoder write: nothing for a connect, a
    create-stream and script data that does not decode, the framed tag for
    audio and video that decode.  Script data that decodes is left out, since
    the bytes the library writes for it are not fixed by the message; a
    publish and a close are no messages of a recording. *)
Definition message_bytes (ev : Event) : option bytes :=
  match ev with
  | EvConnect _ | EvCreateStream _ => Some []
  | EvSetDataFrame ts Payload =>
      match DecodeScriptData (bytes_NewReader Payload) with
      | Failure _ => Some []
      | Success _ => None
      end
  | EvAudio _ _ | EvVideo _ _ => event_bytes ev
  | EvPublish _ _ | EvClose => None
  end.

End SessionModel.

(** From [s] to [s'] the handler, the directories and the number of open
    files are the same, and so is every file but the one the encoder of [s]
    writes to. *)
Definition only_recording_changed (s s' : Sys) : Prop :=
  hnd s' = hnd s
  ∧ dirs (world s') = dirs (world s)
  ∧ length (open_files (world s')) = length (open_files (world s))
  ∧ ∀ q : string,
      (∀ enc d, flvEnc (hnd s) = Some enc →
                open_files (world s) !! enc_w enc = Some d → f_name d ≠ q) →
      files (world s') !! q = files (world s) !! q.

(** ** vision.go

    gocv's windows, matrices and classifiers are resources of the C library:
    each constructor hands out a new one, [Close] releases it.  A resource is
    an index into the table of those created so far. *)

Module Gocv.

Inductive Kind : Type :=
| IsWindow (name : string)
| IsMat
| IsCascadeClassifier.

Record Resource : Type := { r_kind : Kind; r_closed : bool }.

(** The library's state: the resources, the files that hold a cascade the
    classifier can load, and what was printed. *)
Record State : Type := {
  resources : list Resource;
  cascade_files : gset string;
  stdout : list string
}.

Definition alloc (k : Kind) (g : State) : nat * State :=
  (length (resources g),
   {| resources := (resources g ++ [{| r_kind := k; r_closed := false |}])%list;
      cascade_files := cascade_files g;
      stdout := stdout g |}).

Definition NewWindow (name : string) : State → nat * State :=
  alloc (IsWindow name).

Definition NewMat : State → nat * State := alloc IsMat.

Definition NewCascadeClassifier : State → nat * State :=
  alloc IsCascadeClassifier.

Definition Close (r : nat) (g : State) : State :=
  match resources g !! r with
  | Some x =>
      {| resources := <[r := {| r_kind := r_kind x; r_closed := true |}]>
                        (resources g);
         cascade_files := cascade_files g;
         stdout := stdout g |}
  | None => g
  end.

(** [classifier.Load(name)]: whether the file holds a cascade. *)
Definition Load (c : nat) (name : string) (g : State) : bool :=
  bool_decide (name ∈ cascade_files g).

Definition Println (line : string) (g : State) : State :=
  {| resources := resources g;
     cascade_files := cascade_files g;
     stdout := (stdout g ++ [line])%list |}.

(** The deferred calls of a function run when it returns, the last one
    deferred first. *)
Definition run_deferred (deferred : list (State → State)) (g : State) : State :=
  fold_left (λ g call, call g) deferred g.

End Gocv.

(** [color.RGBA]. *)
Record RGBA : Type := { R : Z; G : Z; B : Z; A : Z }.

(** [Vision]: [window] and [img] are pointers, [None] is nil; [classifier]
    is a struct around the library's pointer, [None] its zero value. *)
Record Vision : Type := {
  window : option nat;
  img : option nat;
  classifier : option nat;
  outline : RGBA
}.

(** [NewVision].  Each [defer] is pushed in front of the calls deferred so
    far; both returns run them. *)
Definition NewVision (g : Gocv.State) : Vision * Gocv.State :=
  let v := {| window := None; img := None; classifier := None;
              outline := {| R := 0; G := 0; B := 0; A := 0 |} |} in
  let '(w, g) := Gocv.NewWindow "Face Detect" g in
  let v := {| window := Some w; img := img v; classifier := classifier v;
              outline := outline v |} in
  let deferred := [Gocv.Close w] in
  let '(m, g) := Gocv.NewMat g in
  let deferred := Gocv.Close m :: deferred in
  let v := {| window := window v; img := img v; classifier := classifier v;
              outline := {| R := 0; G := 0; B := 255; A := 0 |} |} in
  let '(c, g) := Gocv.NewCascadeClassifier g in
  let v := {| window := window v; img := img v; classifier := Some c;
              outline := outline v |} in
  let deferred := Gocv.Close c :: deferred in
  if negb (Gocv.Load c "data/haarcascade_frontalface_default.xml" g) then
    let g :=
      Gocv.Println
        "Error reading cascade file: data/haarcascade_frontalface_default.xml"
        g in
    (v, Gocv.run_deferred deferred g)
  else (v, Gocv.run_deferred deferred g).

(** * Facts about the path functions *)

Module FilepathFacts.
Import Filepath.

Lemma length_append (a b : string) :
  String.length (a +:+ b) = String.length a + String.length b.
Proof. induction a as [|c a IH]; simpl; [done|]. by rewrite IH. Qed.

Lemma split_sep_nonempty (s : string) : split_sep s ≠ [].
Proof.
  destruct s as [|c r]; simpl; [done|].
  destruct (IsPathSeparator c); [done|].
  by destruct (split_sep r).
Qed.

Lemma has_sep_String (c : ascii) (s : string) :
  has_sep (String c s) = IsPathSeparator c || has_sep s.
Proof. reflexivity. Qed.

Lemma has_sep_app (a b : string) :
  has_sep (a +:+ b) = has_sep a || has_sep b.
Proof.
  induction a as [|c a IH]; [done|].
  change (String c a +:+ b) with (String c (a +:+ b)).
  by rewrite !has_sep_String, IH, orb_assoc.
Qed.

Lemma split_sep_no_sep (s : string) :
  Forall (λ e, has_sep e = false) (split_sep s).
Proof.
  induction s as [|c r IH]; simpl.
  - by constructor.
  - destruct (IsPathSeparator c) eqn:Hc.
    + by constructor.
    + destruct (split_sep r) as [|e es].
      * constructor; [|done]. by rewrite has_sep_String, Hc.
      * inversion IH as [|? ? He Hes]; subst.
        constructor; [|done]. by rewrite has_sep_String, Hc, He.
Qed.

Lemma split_sep_plain (b : string) : has_sep b = false → split_sep b = [b].
Proof.
  induction b as [|c b IH]; [done|].
  rewrite has_sep_String. intros [Hc Hb]%orb_false_elim.
  simpl. by rewrite Hc, (IH Hb).
Qed.

Lemma split_sep_app_sep (a b : string) :
  split_sep (a +:+ String Separator b) = (split_sep a ++ split_sep b)%list.
Proof.
  induction a as [|c a IH]; [done|].
  change (String c a +:+ String Separator b)
    with (String c (a +:+ String Separator b)).
  simpl. rewrite IH.
  destruct (IsPathSeparator c); [done|].
  pose proof (split_sep_nonempty a) as Hne.
  by destruct (split_sep a).
Qed.

(** Appending text without a separator extends the last element. *)
Lemma split_sep_app_plain (a b : string) :
  has_sep b = false →
  ∃ (init : list string) (l : string),
    split_sep a = (init ++ [l])%list ∧ split_sep (a +:+ b) = (init ++ [l +:+ b])%list.
Proof.
  intros Hb. induction a as [|c a (init & l & Ha & Hab)].
  - exists [], "". split; [done|]. by apply split_sep_plain.
  - change (String c a +:+ b) with (String c (a +:+ b)).
    simpl. rewrite Ha, Hab.
    destruct (IsPathSeparator c).
    + by exists ("" :: init), l.
    + destruct init as [|i init]; simpl.
      * by exists [], (String c l).
      * by exists (String c i :: init), l.
Qed.

Lemma split_sep_Join (es : list string) :
  es ≠ [] → Forall (λ e, has_sep e = false) es →
  split_sep (strings_Join es) = es.
Proof.
  induction es as [|e es IH]; [done|]. intros _ Hes.
  inversion Hes as [|? ? He Hes']; subst.
  destruct es as [|e' es].
  - by apply split_sep_plain.
  - change (strings_Join (e :: e' :: es))
      with (e +:+ String Separator (strings_Join (e' :: es))).
    rewrite split_sep_app_sep, (split_sep_plain e He), IH; done.
Qed.

Lemma is_plain_spec (e : string) :
  is_plain e = true ↔ e ≠ "" ∧ e ≠ "." ∧ e ≠ ".." ∧ has_sep e = false.
Proof.
  unfold is_plain. rewrite !andb_true_iff, !negb_true_iff, !String.eqb_neq.
  tauto.
Qed.

Lemma clean_step_plain (rooted : bool) (out : list string) (e : string) :
  is_plain e = true → clean_step rooted out e = e :: out.
Proof.
  intros (H0 & H1 & H2 & _)%is_plain_spec. unfold clean_step.
  apply String.eqb_neq in H0, H1, H2. by rewrite H0, H1, H2.
Qed.

Lemma fold_clean_step_plain (rooted : bool) (es out : list string) :
  Forall (λ e, is_plain e = true) es →
  fold_left (clean_step rooted) es out = (rev es ++ out)%list.
Proof.
  intros Hes. revert out. induction Hes as [|e es He _ IH]; intros out; [done|].
  simpl. rewrite (clean_step_plain _ _ _ He), IH.
  by rewrite <- app_assoc.
Qed.

(** From the root, the output buffer only ever holds plain elements. *)
Lemma clean_step_rooted_plain (out : list string) (e : string) :
  Forall (λ e, is_plain e = true) out → has_sep e = false →
  Forall (λ e, is_plain e = true) (clean_step true out e).
Proof.
  intros Hout He. unfold clean_step.
  destruct (String.eqb e "") eqn:H0; [done|].
  destruct (String.eqb e ".") eqn:H1; [done|].
  destruct (String.eqb e "..") eqn:H2.
  - destruct out as [|top rest]; [done|].
    inversion Hout as [|? ? Htop Hrest]; subst.
    apply is_plain_spec in Htop as (_ & _ & Htop & _).
    apply String.eqb_neq in Htop. by rewrite Htop.
  - constructor; [|done]. unfold is_plain. by rewrite H0, H1, H2, He.
Qed.

Lemma fold_clean_step_rooted_plain (es out : list string) :
  Forall (λ e, has_sep e = false) es →
  Forall (λ e, is_plain e = true) out →
  Forall (λ e, is_plain e = true) (fold_left (clean_step true) es out).
Proof.
  intros Hes. revert out. induction Hes as [|e es He _ IH]; intros out Hout; [done|].
  simpl. apply IH. by apply clean_step_rooted_plain.
Qed.

Lemma strings_Join_cons (e : string) (es : list string) :
  es ≠ [] → strings_Join (e :: es) = e +:+ "/" +:+ strings_Join es.
Proof. by destruct es. Qed.

Lemma strings_Join_plain_nonempty (es : list string) :
  es ≠ [] → Forall (λ e, is_plain e = true) es → strings_Join es ≠ "".
Proof.
  destruct es as [|e es]; [done|]. intros _ Hes.
  inversion Hes as [|? ? He _]; subst.
  apply is_plain_spec in He as (He & _).
  destruct e; [done|]. by destruct es.
Qed.

Lemma Forall_plain_no_sep (es : list string) :
  Forall (λ e, is_plain e = true) es → Forall (λ e, has_sep e = false) es.
Proof.
  intros H. eapply Forall_impl; [exact H|].
  by intros e (_ & _ & _ & ?)%is_plain_spec.
Qed.

(** A rooted path of plain elements is clean already. *)
Lemma Clean_rooted_plain (es : list string) :
  es ≠ [] → Forall (λ e, is_plain e = true) es →
  Clean ("/" +:+ strings_Join es) = "/" +:+ strings_Join es.
Proof.
  intros Hne Hes.
  change ("/" +:+ strings_Join es) with (String Separator (strings_Join es)).
  unfold Clean.
  change (IsPathSeparator Separator) with true. cbv iota zeta.
  change (split_sep (String Separator (strings_Join es)))
    with ("" :: split_sep (strings_Join es)).
  rewrite split_sep_Join by eauto using Forall_plain_no_sep.
  simpl fold_left. change (clean_step true [] "") with (@nil string).
  by rewrite fold_clean_step_plain, app_nil_r, rev_involutive.
Qed.

(** Cleaning an absolute path whose last element is a file name with an
    extension gives the root followed by plain elements, at least one. *)
Lemma Clean_rooted_flv (name : string) :
  ∃ es : list string,
    es ≠ [] ∧ Forall (λ e, is_plain e = true) es
    ∧ Clean ("/" +:+ "/" +:+ (name +:+ ".flv")) = "/" +:+ strings_Join es.
Proof.
  destruct (split_sep_app_plain name ".flv" eq_refl) as (init & l & Hn & Hnf).
  set (out := fold_left (clean_step true) ("" :: "" :: init) []).
  assert (Hl : has_sep l = false).
  { pose proof (split_sep_no_sep name) as H. rewrite Hn in H.
    apply Forall_app in H as [_ H]. by inversion H. }
  assert (Hinit : Forall (λ e, has_sep e = false) ("" :: "" :: init)).
  { pose proof (split_sep_no_sep name) as H. rewrite Hn in H.
    apply Forall_app in H as [H _]. by repeat constructor. }
  assert (Hout : Forall (λ e, is_plain e = true) out).
  { by apply fold_clean_step_rooted_plain. }
  assert (Hlast : is_plain (l +:+ ".flv") = true).
  { apply is_plain_spec. rewrite has_sep_app, Hl.
    assert (Hlen : String.length (l +:+ ".flv") = String.length l + 4)
      by apply length_append.
    repeat split; try done; intros Heq; rewrite Heq in Hlen; simpl in Hlen; lia. }
  exists (rev out ++ [l +:+ ".flv"])%list. split; [|split].
  - by destruct (rev out).
  - apply Forall_app. split; [by apply Forall_rev|by constructor].
  - change ("/" +:+ "/" +:+ (name +:+ ".flv"))
      with (String Separator (String Separator (name +:+ ".flv"))).
    unfold Clean. change (IsPathSeparator Separator) with true. cbv iota zeta.
    change (split_sep (String Separator (String Separator (name +:+ ".flv"))))
      with ("" :: "" :: split_sep (name +:+ ".flv")).
    rewrite Hnf.
    change ("" :: "" :: (init ++ [l +:+ ".flv"])%list)
      with (("" :: "" :: init) ++ [l +:+ ".flv"])%list.
    rewrite fold_left_app. fold out. simpl fold_left.
    rewrite (clean_step_plain _ _ _ Hlast). done.
Qed.

End FilepathFacts.

(** [Clean] and [Join] on the cases of the tables the Go library tests them
    with. *)
Example Clean_table :
  map Filepath.Clean
    ["abc"; "abc/def"; "a/b/c"; "."; ".."; "../.."; "../../abc"; "/abc"; "/";
     ""; "abc/"; "abc/def/"; "a/b/c/"; "./"; "../"; "../../"; "/abc/";
     "abc//def//ghi"; "abc//"; "abc/./def"; "/./abc/def"; "abc/.";
     "abc/def/ghi/../jkl"; "abc/def/../ghi/../jkl"; "abc/def/.."; "abc/def/../..";
     "/abc/def/../.."; "abc/def/../../.."; "/abc/def/../../..";
     "abc/def/../../../ghi/jkl/../../../mno"; "/../abc";
     "abc/./../def"; "abc//./../def"; "abc/../../././../def"]
  = ["abc"; "abc/def"; "a/b/c"; "."; ".."; "../.."; "../../abc"; "/abc"; "/";
     "."; "abc"; "abc/def"; "a/b/c"; "."; ".."; "../.."; "/abc";
     "abc/def/ghi"; "abc"; "abc/def"; "/abc/def"; "abc";
     "abc/def/jkl"; "abc/jkl"; "abc"; ".";
     "/"; ".."; "/";
     "../../mno"; "/abc";
     "def"; "def"; "../../def"].
Proof. reflexivity. Qed.

Example Join_table :
  map Filepath.Join
    [[]; [""]; ["/"]; ["a"]; ["a"; "b"]; ["a"; ""]; [""; "b"]; ["/"; "a"];
     ["/"; "a/b"]; ["/"; ""]; ["/a"; "b"]; ["a"; "/b"]; ["/a"; "/b"];
     ["a/"; "b"]; ["a/"; ""]; [""; ""]; ["/"; "a"; "b"]]
  = [""; ""; "/"; "a"; "a/b"; "a"; "b"; "/a";
     "/a/b"; "/"; "/a/b"; "a/b"; "/a/b";
     "a/b"; "a"; ""; "/a/b"].
Proof. reflexivity. Qed.

(** Whatever the publishing name, the recording path is [received/] followed
    by one or more plain elements. *)
Lemma recording_path_plain (PublishingName : string) :
  Filepath.under_base "received" (recording_path PublishingName).
Proof.
  rename PublishingName into name. unfold recording_path.
  destruct (FilepathFacts.Clean_rooted_flv name) as (es & Hne & Hes & Hc).
  exists es. split; [done|]. split; [done|].
  change (Filepath.Join ["/"; name +:+ ".flv"])
    with (Filepath.Clean ("/" +:+ "/" +:+ (name +:+ ".flv"))).
  rewrite Hc, FilepathFacts.Clean_rooted_plain by done.
  set (J := Filepath.strings_Join es).
  pose (tl := String Filepath.Separator
                ("" +:+ String Filepath.Separator
                   ("" +:+ String Filepath.Separator J))).
  change (Filepath.Join ["received/"; "/" +:+ J])
    with (Filepath.Clean (String "r" ("eceived" +:+ tl))).
  unfold Filepath.Clean. cbv beta iota zeta.
  change (Filepath.IsPathSeparator "r") with false. cbv iota.
  change (String "r" ("eceived" +:+ tl)) with ("received" +:+ tl).
  unfold tl. rewrite !FilepathFacts.split_sep_app_sep. unfold J.
  rewrite FilepathFacts.split_sep_Join
    by eauto using FilepathFacts.Forall_plain_no_sep.
  change (Filepath.split_sep "received") with ["received"].
  change (Filepath.split_sep "") with [""].
  simpl fold_left.
  change (Filepath.clean_step false [] "received") with ["received"].
  change (Filepath.clean_step false ["received"] "") with ["received"].
  rewrite FilepathFacts.fold_clean_step_plain by done.
  rewrite rev_app_distr, rev_involutive. simpl rev. simpl app.
  rewrite FilepathFacts.strings_Join_cons by done.
  destruct (String.eqb _ "") eqn:E; [|done].
  apply String.eqb_eq in E. discriminate E.
Qed.

Local Close Scope string_scope.

(** * The callbacks *)

(** Unfolds the handler monad down to state passing. *)
Ltac run_M :=
  unfold mbind, M_bind, mret, M_ret, log_Printf, get_handler, set_flvFile,
    set_flvEnc, sys, panic; simpl.

Section HandlerFacts.

Context `{codec : FlvCodec}.

(** The encoder does not log, leaves the handler alone, and returns an error
    or nothing, unless it is nil. *)
Lemma Encoder_Encode_inv (enc : option Encoder) (t : FlvTag ScriptData)
    (s : Sys) :
  ∃ (r : outcome (option error)) (s' : Sys),
    Encoder_Encode enc t s = (r, s', []) ∧ hnd s' = hnd s
    ∧ (enc = None → r = Panics ∧ s' = s)
    ∧ (enc ≠ None → ∃ e, r = Returns e).
Proof.
  unfold Encoder_Encode. destruct enc as [e|].
  - destruct (EncodeFlvTag t) as [b|err]; run_M.
    + destruct (os_Write (enc_w e) b (world s)) as [r w] eqn:Hw.
      eexists _, _. repeat split; eauto; done.
    + eexists _, _. repeat split; eauto; done.
  - run_M. eexists _, _. repeat split; eauto; done.
Qed.

(** C2.  When [processFrameWithCV] fails on a key frame, [OnVideo] does what
    the handler with the transform stage disabled does - the same return
    value, the same handler and world afterwards and so the same bytes in the
    file - and logs the failure before anything else.  It returns no error:
    nil whenever the encoder is set. *)
Theorem OnVideo_fail_open (timestamp : Z) (payload : Reader)
    (video : VideoData) (flvBody : bytes) (err : error) (s : Sys) :
  DecodeVideoData payload = Success video →
  io_Copy (video_Data video) = Success flvBody →
  FrameType video = FrameTypeKeyFrame →
  processFrameWithCV flvBody (CodecID video) = Failure err →
  ∃ (r : outcome (option error)) (s' : Sys) (l : list LogEntry),
    OnVideo_stage_disabled timestamp payload s = (r, s', l)
    ∧ OnVideo timestamp payload s = (r, s', LogVideoProcessFailed err :: l)
    ∧ (∀ e, r ≠ Returns (Some e))
    ∧ (flvEnc (hnd s) ≠ None → r = Returns None).
Proof.
  intros Hdec Hcopy Hkey Hproc.
  unfold OnVideo, OnVideo_stage_disabled.
  rewrite Hdec, Hcopy, Hkey, Z.eqb_refl, Hproc. run_M.
  match goal with
  | |- context [Encoder_Encode ?enc ?t s] =>
      destruct (Encoder_Encode_inv enc t s) as (r & s1 & -> & _ & Hnil & Hset)
  end.
  destruct r as [[e|]|]; eexists _, _, _; repeat split; try done.
  intros Henc. by destruct (Hset Henc).
Qed.

(** A video tag that is not a key frame never reaches the transform, and for
    a key frame of a codec other than AVC [processFrameWithCV] hands the frame
    back: in both cases [OnVideo] does what the handler with the stage
    disabled does. *)
Lemma OnVideo_skips_other_frames (timestamp : Z) (payload : Reader)
    (video : VideoData) (flvBody : bytes) (s : Sys) :
  DecodeVideoData payload = Success video →
  io_Copy (video_Data video) = Success flvBody →
  FrameType video ≠ FrameTypeKeyFrame ∨ CodecID video ≠ CodecIDAVC →
  OnVideo timestamp payload s = OnVideo_stage_disabled timestamp payload s.
Proof.
  intros Hdec Hcopy Hby.
  unfold OnVideo, OnVideo_stage_disabled. rewrite Hdec, Hcopy.
  destruct (FrameType video =? FrameTypeKeyFrame)%Z eqn:Hk.
  - apply Z.eqb_eq in Hk. destruct Hby as [Hnk|Hcodec]; [done|].
    unfold processFrameWithCV. apply Z.eqb_neq in Hcodec. rewrite Hcodec.
    run_M. by destruct (Encoder_Encode _ _ s) as [[[[e|]|] s1] l1].
  - run_M. by destruct (Encoder_Encode _ _ s) as [[[[e|]|] s1] l1].
Qed.


(** C8.  An audio or video payload that does not decode makes the callback
    return the decoding error, with nothing else done.  A script-data, audio
    or video tag that decodes but that the encoder fails to write makes the
    callback log the write error and return nil, the session left as the
    failed write left it. *)
Theorem decode_failure_fatal_write_failure_logged :
  (∀ (timestamp : Z) (payload : Reader) (err : error) (s : Sys),
     DecodeAudioData payload = Failure err →
     OnAudio timestamp payload s = (Returns (Some err), s, []))
  ∧ (∀ (timestamp : Z) (payload : Reader) (err : error) (s : Sys),
       DecodeVideoData payload = Failure err →
       OnVideo timestamp payload s = (Returns (Some err), s, []))
  ∧ (∀ (ev : Event) (t : FlvTag ScriptData) (err : error) (s s' : Sys),
       event_tag ev = Some t →
       Encoder_Encode (flvEnc (hnd s)) t s = (Returns (Some err), s', []) →
       ∃ l : list LogEntry,
         dispatch ev s = (Returns None, s', l)
         ∧ last l = Some (match ev with
                          | EvAudio _ _ => LogAudioWriteFailed err
                          | _ => LogVideoWriteFailed err
                          end))
  ∧ (∀ (timestamp : Z) (Payload : bytes) (script : ScriptData) (err : error)
       (s s' : Sys),
       DecodeScriptData (bytes_NewReader Payload) = Success script →
       Encoder_Encode (flvEnc (hnd s))
         {| TagType := TagTypeScriptData; Timestamp := timestamp;
            StreamID := 0; Data := IsScriptData script |} s
       = (Returns (Some err), s', []) →
       OnSetDataFrame timestamp Payload s
       = (Returns None, s', [LogScriptWriteFailed err])).
Proof.
  repeat split.
  - intros ts payload err s Hdec. unfold OnAudio. by rewrite Hdec.
  - intros ts payload err s Hdec. unfold OnVideo. by rewrite Hdec.
  - intros ev t err s s' Htag Hw.
    destruct ev as [| | | |ts payload|ts payload|]; try done; simpl in Htag.
    + unfold dispatch, OnAudio.
      destruct (DecodeAudioData payload) as [audio|]; [|done].
      destruct (io_Copy (audio_Data audio)) as [body|]; [|done].
      injection Htag as <-. run_M. rewrite Hw. by eexists.
    + unfold dispatch, OnVideo.
      destruct (DecodeVideoData payload) as [video|]; [|done].
      destruct (io_Copy (video_Data video)) as [body|]; [|done].
      injection Htag as <-.
      destruct (FrameType video =? FrameTypeKeyFrame)%Z.
      * destruct (processFrameWithCV body (CodecID video)) as [processed|e];
          run_M; rewrite Hw; by eexists.
      * run_M. rewrite Hw. by eexists.
  - intros ts Payload script err s s' Hdec Hw.
    unfold OnSetDataFrame. rewrite Hdec. run_M. by rewrite Hw.
Qed.

Lemma os_Close_files (f : nat) (w : World) :
  files (os_Close f w).2 = files w.
Proof.
  unfold os_Close. destruct (open_files w !! f) as [d|]; [|done].
  by destruct (f_closed d).
Qed.

Lemma os_Close_closed (f : nat) (d : File) (w : World) :
  open_files w !! f = Some d →
  ∃ d', open_files (os_Close f w).2 !! f = Some d' ∧ f_closed d' = true.
Proof.
  intros Hf. unfold os_Close. rewrite Hf.
  destruct (f_closed d) eqn:Hd; simpl.
  - exists d. split; [exact Hf|exact Hd].
  - eexists. split; [apply list_lookup_insert_eq; by eapply lookup_lt_Some|].
    done.
Qed.

Lemma os_Close_twice (f : nat) (w : World) :
  (os_Close f (os_Close f w).2).2 = (os_Close f w).2.
Proof.
  destruct (open_files w !! f) as [d|] eqn:Hf.
  - destruct (os_Close_closed f d w Hf) as (d' & Hf' & Hd').
    unfold os_Close at 1. by rewrite Hf', Hd'.
  - unfold os_Close. rewrite Hf. simpl. by rewrite Hf.
Qed.

Lemma OnClose_eq (s : Sys) :
  OnClose s
  = (Returns tt,
     match flvFile (hnd s) with
     | Some f => {| hnd := hnd s; world := (os_Close f (world s)).2 |}
     | None => s
     end,
     [LogConnectionClosed]).
Proof.
  unfold OnClose. run_M. destruct (flvFile (hnd s)) as [f|]; run_M.
  - by destruct (os_Close f (world s)).
  - done.
Qed.

(** C9.  [OnClose] returns, without a panic, from every state of the handler
    and the world.  It leaves the handler and the files' contents untouched;
    with no file handle it changes nothing at all; with one, that file is
    closed afterwards.  A second [OnClose] returns as well and changes
    nothing any more. *)
Theorem OnClose_safe_idempotent (s : Sys) :
  ∃ (s1 : Sys) (l1 : list LogEntry),
    OnClose s = (Returns tt, s1, l1)
    ∧ hnd s1 = hnd s
    ∧ files (world s1) = files (world s)
    ∧ (flvFile (hnd s) = None → s1 = s)
    ∧ (∀ f d, flvFile (hnd s) = Some f → open_files (world s) !! f = Some d →
         ∃ d', open_files (world s1) !! f = Some d' ∧ f_closed d' = true)
    ∧ ∃ l2 : list LogEntry, OnClose s1 = (Returns tt, s1, l2).
Proof.
  rewrite OnClose_eq. eexists _, _. split; [done|].
  destruct s as [[file enc] w]; simpl.
  destruct file as [f|]; simpl.
  - repeat split; try done.
    + apply os_Close_files.
    + intros f' d [= <-]. apply os_Close_closed.
    + eexists. rewrite OnClose_eq. simpl. by rewrite os_Close_twice.
  - repeat split; try done. eexists. by rewrite OnClose_eq.
Qed.

(** C10.  While the encoder is nil - no publish has succeeded yet - a
    script-data, audio or video message whose payload decodes makes the
    callback panic on the nil encoder instead of returning: the result is
    neither nil nor an error. *)
Theorem callbacks_before_publish_panic (timestamp : Z) (s : Sys) :
  flvEnc (hnd s) = None →
  (∀ (Payload : bytes) (script : ScriptData),
     DecodeScriptData (bytes_NewReader Payload) = Success script →
     (OnSetDataFrame timestamp Payload s).1.1 = Panics)
  ∧ (∀ (payload : Reader) (audio : AudioData) (flvBody : bytes),
       DecodeAudioData payload = Success audio →
       io_Copy (audio_Data audio) = Success flvBody →
       (OnAudio timestamp payload s).1.1 = Panics)
  ∧ (∀ (payload : Reader) (video : VideoData) (flvBody : bytes),
       DecodeVideoData payload = Success video →
       io_Copy (video_Data video) = Success flvBody →
       (OnVideo timestamp payload s).1.1 = Panics).
Proof.
  intros Hnil. repeat split.
  - intros Payload script Hdec. unfold OnSetDataFrame.
    rewrite Hdec. run_M. by rewrite Hnil.
  - intros payload audio body Hdec Hcopy. unfold OnAudio.
    rewrite Hdec, Hcopy. run_M. by rewrite Hnil.
  - intros payload video body Hdec Hcopy. unfold OnVideo.
    rewrite Hdec, Hcopy.
    destruct (FrameType video =? FrameTypeKeyFrame)%Z.
    + destruct (processFrameWithCV body (CodecID video)); run_M;
        by rewrite Hnil.
    + run_M. by rewrite Hnil.
Qed.

End HandlerFacts.

(** * Writing to the file *)

Lemma write_at_end (written b rest : bytes) :
  write_at (length written) b (written ++ rest)
  = ((written ++ b) ++ drop (length b) rest)%list.
Proof.
  unfold write_at.
  rewrite <- (app_assoc written rest), take_app_length.
  rewrite drop_app_add', <- app_assoc; done.
Qed.

Lemma no_faults_S (n : nat) (w : World) :
  no_faults (S n) w →
  (∀ later, faults w ≠ true :: later) ∧ Forall (λ b, b = false) (take n (tail (faults w))).
Proof.
  unfold no_faults. destruct (faults w) as [|b fl]; simpl.
  - intros _. split; [done|]. by rewrite take_nil.
  - intros H. inversion H; subst. split; [done|done].
Qed.

(** A write to an open file, with no fault due, lands at the offset. *)
Lemma os_Write_ok (f : nat) (d : File) (b : bytes) (n : nat) (w : World) :
  open_files w !! f = Some d → f_closed d = false → no_faults (S n) w →
  ∃ w' : World,
    os_Write f b w = (None, w')
    ∧ open_files w' !! f
      = Some {| f_name := f_name d; f_offset := f_offset d + length b;
                f_closed := false |}
    ∧ files w' !! f_name d
      = Some (write_at (f_offset d) b (default [] (files w !! f_name d)))
    ∧ no_faults n w'.
Proof.
  intros Hf Hd [Hnf Hrest]%no_faults_S. unfold os_Write. rewrite Hf, Hd.
  assert (Hlt : f < length (open_files w)) by by eapply lookup_lt_Some.
  destruct (faults w) as [|[|] later] eqn:Hfl.
  - eexists. split; [done|]. simpl. split; [by apply list_lookup_insert_eq|].
    split; [by rewrite lookup_insert_eq|done].
  - by destruct (Hnf later).
  - eexists. split; [done|]. simpl. split; [by apply list_lookup_insert_eq|].
    split; [by rewrite lookup_insert_eq|done].
Qed.

Section OrderFacts.

Context `{codec : FlvCodec}.

(** Encoding a tag while recording appends its bytes, and nothing else. *)
Lemma Encoder_Encode_appends (path : string) (written b : bytes)
    (t : FlvTag ScriptData) (n : nat) (s : Sys) :
  recording path written s → no_faults (S n) (world s) →
  EncodeFlvTag t = Success b →
  ∃ s' : Sys,
    Encoder_Encode (flvEnc (hnd s)) t s = (Returns None, s', [])
    ∧ recording path (written ++ b) s' ∧ no_faults n (world s').
Proof.
  intros (enc & d & rest & Henc & Hf & Hd & Hname & Hoff & Hfile) Hnf Hb.
  destruct (os_Write_ok (enc_w enc) d b n (world s) Hf Hd Hnf)
    as (w' & Hw & Hf' & Hfile' & Hnf').
  rewrite Henc. unfold Encoder_Encode. rewrite Hb. run_M. rewrite Hw.
  eexists. split; [done|]. split; [|done].
  exists enc, {| f_name := f_name d; f_offset := f_offset d + length b;
                 f_closed := false |}, (drop (length b) rest). simpl.
  repeat split; try done.
  - rewrite length_app. lia.
  - subst path. rewrite Hfile', Hfile. simpl.
    by rewrite Hoff, write_at_end.
Qed.

(** Each audio and video callback appends exactly the tag of its message. *)
Lemma dispatch_appends (path : string) (written c : bytes) (ev : Event)
    (n : nat) (s : Sys) :
  recording path written s → no_faults (S n) (world s) →
  event_bytes ev = Some c →
  ∃ (s' : Sys) (l : list LogEntry),
    dispatch ev s = (Returns None, s', l)
    ∧ recording path (written ++ c) s' ∧ no_faults n (world s').
Proof.
  intros Hrec Hnf Hc. unfold event_bytes in Hc.
  destruct (event_tag ev) as [t|] eqn:Ht; [|done].
  destruct (EncodeFlvTag t) as [b|] eqn:Hb; [|done]. injection Hc as ->.
  destruct (Encoder_Encode_appends path written c t n s Hrec Hnf Hb)
    as (s' & Hw & Hrec' & Hnf').
  destruct ev as [| | | |ts payload|ts payload|]; try done; simpl in Ht.
  - unfold dispatch, OnAudio.
    destruct (DecodeAudioData payload) as [audio|]; [|done].
    destruct (io_Copy (audio_Data audio)) as [body|]; [|done].
    injection Ht as <-. run_M. rewrite Hw. by eexists _, _.
  - unfold dispatch, OnVideo.
    destruct (DecodeVideoData payload) as [video|]; [|done].
    destruct (io_Copy (video_Data video)) as [body|]; [|done].
    injection Ht as <-.
    destruct (FrameType video =? FrameTypeKeyFrame)%Z.
    + destruct (processFrameWithCV body (CodecID video)) as [processed|e];
        run_M; rewrite Hw; by eexists _, _.
    + run_M. rewrite Hw. by eexists _, _.
Qed.

Lemma serve_appends (path : string) (evs : list Event) (chunks : list bytes) :
  Forall2 (λ ev c, event_bytes ev = Some c) evs chunks →
  ∀ (written : bytes) (s : Sys),
    recording path written s → no_faults (length evs) (world s) →
    ∃ (s' : Sys) (l : list LogEntry),
      serve evs s = (Returns (replicate (length evs) None), s', l)
      ∧ recording path (written ++ concat chunks) s'.
Proof.
  induction 1 as [|ev c evs chunks Hc _ IH]; intros written s Hrec Hnf.
  - exists s, []. split; [done|]. simpl. by rewrite app_nil_r.
  - destruct (dispatch_appends path written c ev (length evs) s Hrec Hnf Hc)
      as (s1 & l1 & Hd & Hrec1 & Hnf1).
    destruct (IH (written ++ c)%list s1 Hrec1 Hnf1) as (s2 & l2 & Hs & Hrec2).
    exists s2, (l1 ++ l2 ++ [])%list. split.
    + cbn [serve]. unfold mbind, M_bind at 1. rewrite Hd.
      unfold mbind, M_bind, mret, M_ret. by rewrite Hs.
    + simpl. by rewrite app_assoc.
Qed.

Lemma os_OpenFile_Success (name : string) (flag : Z) (f : nat) (w w' : World) :
  os_OpenFile name flag w = (Success f, w') →
  open_files w' !! f = Some {| f_name := name; f_offset := 0; f_closed := false |}
  ∧ faults w' = faults w
  ∧ is_Some (files w' !! name)
  ∧ (has_flag flag O_TRUNC = false → ∀ old, files w !! name = Some old →
     files w' !! name = Some old).
Proof.
  unfold os_OpenFile. destruct (decide (name ∈ dirs w)); [done|].
  destruct (_ && _); [done|].
  destruct (files w !! name) as [old|] eqn:Hold.
  - destruct (has_flag flag O_TRUNC); intros [= <- <-]; simpl;
      (split; [by apply list_lookup_middle|]); (split; [done|]).
    + split; [|done]. rewrite lookup_insert_eq. by eexists.
    + split; [by eexists|]. by intros _ old' [= ->].
  - destruct (has_flag flag O_CREATE); [|done]. intros [= <- <-]; simpl.
    split; [by apply list_lookup_middle|]. split; [done|].
    split; [|done]. rewrite lookup_insert_eq. by eexists.
Qed.

(** After a successful publish the session records to the recording path and
    has written the file header. *)
Lemma OnPublish_recording (timestamp : Z) (name : string) (s s' : Sys)
    (l : list LogEntry) :
  OnPublish timestamp name s = (Returns None, s', l) →
  recording (recording_path name)
    (EncodeHeader (Z.lor FlagsAudio FlagsVideo)) s'.
Proof.
  unfold OnPublish. run_M.
  destruct (os_MkdirAll "received" (world s)) as [e0 w0] eqn:Hmk. simpl.
  destruct (os_OpenFile (recording_path name) _ w0) as [[f|err] w1] eqn:Hopen;
    run_M; [|done].
  apply os_OpenFile_Success in Hopen as (Hf & Hfl & [old Hold] & _).
  unfold flv_NewEncoder, os_Write. rewrite Hf. simpl.
  assert (Hlt : f < length (open_files w1)) by by eapply lookup_lt_Some.
  set (hdr := EncodeHeader (Z.lor FlagsAudio FlagsVideo)).
  assert (Hdone :
    recording (recording_path name) hdr
      {| hnd := {| flvFile := Some f; flvEnc := Some {| enc_w := f |} |};
         world :=
           set_faults (tail (faults w1))
             (set_open_files
                (<[f := {| f_name := recording_path name;
                           f_offset := 0 + length hdr; f_closed := false |}]>
                   (open_files w1))
                (set_files
                   (<[recording_path name
                      := write_at 0 hdr (default [] (files w1 !! recording_path name))]>
                      (files w1)) w1)) |}).
  { exists {| enc_w := f |},
      {| f_name := recording_path name; f_offset := 0 + length hdr;
         f_closed := false |}, (drop (length hdr) old). simpl.
    split; [done|]. split; [by apply list_lookup_insert_eq|].
    repeat split; try done.
    by rewrite lookup_insert_eq, Hold. }
  destruct (faults w1) as [|[|] later] eqn:Hfl1; run_M.
  - by intros [= <- <-].
  - by destruct (os_Close f _).
  - by intros [= <- <-].
Qed.

(** C3.  After a successful publish, any audio and video messages that
    decode, served in the order they arrive while the file takes the writes,
    each return nil and leave the file at the recording path starting with
    the header followed by the messages' tags in exactly that order, one tag
    per message, the write offset right behind the last one.  Nothing is
    asked of the timestamps. *)
Theorem tags_in_submission_order (timestamp : Z) (name : string)
    (s0 s1 : Sys) (l1 : list LogEntry)
    (evs : list Event) (chunks : list bytes) :
  OnPublish timestamp name s0 = (Returns None, s1, l1) →
  Forall2 (λ ev c, event_bytes ev = Some c) evs chunks →
  no_faults (length evs) (world s1) →
  recording (recording_path name) (EncodeHeader (Z.lor FlagsAudio FlagsVideo)) s1
  ∧ ∃ (s2 : Sys) (l2 : list LogEntry),
      serve evs s1 = (Returns (replicate (length evs) None), s2, l2)
      ∧ recording (recording_path name)
          (EncodeHeader (Z.lor FlagsAudio FlagsVideo) ++ concat chunks) s2.
Proof.
  intros Hpub Hevs Hnf.
  pose proof (OnPublish_recording _ _ _ _ _ Hpub) as Hrec.
  split; [done|]. by eapply serve_appends.
Qed.

Lemma mkdir_all_files (parent elems : list string) (w : World) :
  files (mkdir_all parent elems w).2 = files w.
Proof.
  revert parent w. induction elems as [|e elems IH]; intros parent w; [done|].
  simpl. destruct (files w !! _); [done|]. by rewrite IH.
Qed.

Lemma os_OpenFile_files (name : string) (flag : Z) (w : World) (q : string) :
  q ≠ name → files (os_OpenFile name flag w).2 !! q = files w !! q.
Proof.
  intros Hq. unfold os_OpenFile. destruct (decide (name ∈ dirs w)); [done|].
  destruct (_ && _); [done|].
  destruct (files w !! name);
    [destruct (has_flag flag O_TRUNC)|destruct (has_flag flag O_CREATE)];
    simpl; by rewrite ?lookup_insert_ne.
Qed.

Lemma os_Write_files (f : nat) (d : File) (b : bytes) (w : World) (q : string) :
  open_files w !! f = Some d → q ≠ f_name d →
  files (os_Write f b w).2 !! q = files w !! q.
Proof.
  intros Hf Hq. unfold os_Write. rewrite Hf.
  destruct (f_closed d); [done|].
  destruct (faults w) as [|[|] later]; simpl; by rewrite ?lookup_insert_ne.
Qed.

(** A publish touches no file but the one at the recording path. *)
Lemma OnPublish_files (timestamp : Z) (name : string) (s : Sys) (q : string) :
  q ≠ recording_path name →
  files (world (OnPublish timestamp name s).1.2) !! q = files (world s) !! q.
Proof.
  intros Hq. unfold OnPublish. run_M.
  pose proof (mkdir_all_files []
                (Filepath.split_sep (Filepath.Clean "received")) (world s)) as Hmk.
  fold (os_MkdirAll "received" (world s)) in Hmk.
  destruct (os_MkdirAll "received" (world s)) as [e0 w0]. simpl in Hmk |- *.
  pose proof (os_OpenFile_files (recording_path name)
                (Z.lor O_CREATE O_WRONLY) w0 q Hq) as Hof.
  destruct (os_OpenFile (recording_path name) _ w0) as [[f|err] w1] eqn:Hopen;
    run_M; simpl in Hof; [|by rewrite Hof, Hmk].
  apply os_OpenFile_Success in Hopen as (Hf & _).
  pose proof (os_Write_files f _ (EncodeHeader (Z.lor FlagsAudio FlagsVideo))
                w1 q Hf Hq) as Hwf.
  unfold flv_NewEncoder.
  destruct (os_Write f _ w1) as [[e|] w2]; run_M; simpl in Hwf.
  - pose proof (os_Close_files f w2) as Hcf.
    destruct (os_Close f w2) as [e1 w3]. simpl in Hcf |- *.
    by rewrite Hcf, Hwf, Hof, Hmk.
  - by rewrite Hwf, Hof, Hmk.
Qed.

(** C1.  For every publishing name - with traversal sequences, absolute, or
    empty - the path [OnPublish] records to lies under the directory
    [received]: it is [received/] followed by one or more plain elements, none
    of which is [..].  The names [../../etc/passwd] and [/etc/passwd] are
    recorded at [received/etc/passwd.flv], the empty name at [received/.flv].
    Accordingly [OnPublish], whatever name it is given and whether it
    succeeds or not, leaves every file that is not under [received] as it
    was. *)
Theorem recording_path_under_base :
  (∀ PublishingName : string,
     Filepath.under_base "received" (recording_path PublishingName))
  ∧ recording_path "../../etc/passwd" = "received/etc/passwd.flv"%string
  ∧ recording_path "/etc/passwd" = "received/etc/passwd.flv"%string
  ∧ recording_path "" = "received/.flv"%string
  ∧ (∀ (timestamp : Z) (PublishingName : string) (s : Sys) (q : string),
       ¬ Filepath.under_base "received" q →
       files (world (OnPublish timestamp PublishingName s).1.2) !! q
       = files (world s) !! q).
Proof.
  split; [exact recording_path_plain|].
  do 3 (split; [reflexivity|]).
  intros ts name s q Hq. apply OnPublish_files.
  intros ->. apply Hq, recording_path_plain.
Qed.

End OrderFacts.

(** * The handler on the wire codec *)

(** A key frame of AVC with two bytes of NAL-unit data: the transform reads
    the data as an AVC packet, which takes four bytes, fails with an
    unexpected end of input, and the frame is written as it came. *)
Lemma OnVideo_fail_open_witness :
  ∃ (r : outcome (option error)) (s' : Sys) (l : list LogEntry),
    OnVideo_stage_disabled 7 Wire.key_avc_nalu Wire.published = (r, s', l)
    ∧ OnVideo 7 Wire.key_avc_nalu Wire.published
      = (r, s', LogVideoProcessFailed ErrUnexpectedEOF :: l)
    ∧ (∀ e, r ≠ Returns (Some e))
    ∧ (flvEnc (hnd Wire.published) ≠ None → r = Returns None).
Proof.
  apply (OnVideo_fail_open (codec := Wire.codec) 7 Wire.key_avc_nalu
           {| FrameType := 1; CodecID := 7;
              video_AVCPacketType := 1; video_CompositionTime := 0;
              video_Data := bytes_NewReader [xaa; xbb] |}
           [xaa; xbb] ErrUnexpectedEOF Wire.published);
    reflexivity.
Defined.


(** An empty payload fails to decode and the callback returns [EOF]; after
    the connection is closed the file refuses the write, which is logged. *)
Lemma decode_failure_fatal_write_failure_logged_witness :
  OnAudio 3 (bytes_NewReader []) Wire.published
  = (Returns (Some EOF), Wire.published, [])
  ∧ OnVideo 3 (bytes_NewReader []) Wire.published
    = (Returns (Some EOF), Wire.published, [])
  ∧ (dispatch (EvAudio 3 Wire.aac_audio) Wire.closed).1
    = (Returns None, Wire.closed)
  ∧ last (dispatch (EvAudio 3 Wire.aac_audio) Wire.closed).2
    = Some (LogAudioWriteFailed ErrClosed)
  ∧ OnSetDataFrame 3 Wire.script_ok Wire.closed
    = (Returns None, Wire.closed, [LogScriptWriteFailed ErrClosed]).
Proof.
  destruct (decode_failure_fatal_write_failure_logged (codec := Wire.codec))
    as (Haudio & Hvideo & Hwrite & Hscript).
  split; [by apply Haudio|]. split; [by apply Hvideo|].
  destruct (Hwrite (EvAudio 3 Wire.aac_audio)
              {| TagType := TagTypeAudio; Timestamp := 3; StreamID := 0;
                 Data := IsAudioData
                   {| SoundFormat := 10; SoundRate := 3; SoundSize := 1;
                      SoundType := 1; AACPacketType := 1;
                      audio_Data := bytes_NewBuffer [x21; x10] |} |}
              ErrClosed Wire.closed Wire.closed eq_refl eq_refl)
    as (l & Hd & Hl).
  rewrite Hd. split; [reflexivity|]. split; [exact Hl|].
  eapply Hscript; reflexivity.
Defined.

(** On a fresh handler each of the three callbacks panics. *)
Lemma callbacks_before_publish_panic_witness :
  (OnSetDataFrame 0 Wire.script_ok Wire.fresh).1.1 = Panics
  ∧ (OnAudio 0 Wire.aac_audio Wire.fresh).1.1 = Panics
  ∧ (OnVideo 0 Wire.inter_avc Wire.fresh).1.1 = Panics.
Proof.
  destruct (callbacks_before_publish_panic (codec := Wire.codec) 0 Wire.fresh
              eq_refl) as (Hscript & Haudio & Hvideo).
  split; [|split].
  - eapply Hscript. reflexivity.
  - eapply Haudio; reflexivity.
  - eapply Hvideo; reflexivity.
Defined.

(** Three messages with timestamps 40, 10 and 5 are recorded in the order
    they came. *)
Lemma tags_in_submission_order_witness :
  recording "received/stream1.flv" (Wire.encodeHeader 5) Wire.published
  ∧ ∃ (s2 : Sys) (l2 : list LogEntry),
      serve Wire.backwards Wire.published = (Returns [None; None; None], s2, l2)
      ∧ recording "received/stream1.flv"
          (Wire.encodeHeader 5
           ++ concat (map (λ ev, default [] (event_bytes ev)) Wire.backwards)) s2.
Proof.
  apply (tags_in_submission_order (codec := Wire.codec) 0 "stream1"
           Wire.fresh Wire.published (OnPublish 0 "stream1" Wire.fresh).2
           Wire.backwards
           (map (λ ev, default [] (event_bytes ev)) Wire.backwards)).
  - vm_compute. reflexivity.
  - repeat constructor.
  - vm_compute. constructor.
Defined.

(** C4.  [OnPublish] opens the file with [O_CREATE|O_WRONLY], without
    [O_TRUNC], so a file already at the recording path is not emptied: over a
    recording of twenty bytes, the publish succeeds, the header overwrites
    its start and the bytes behind the header are still there (the last
    seven here, where the header counts thirteen bytes with the first
    previous-tag size; eleven behind the nine bytes the library writes).
    Opened with [O_TRUNC] as well, the same file is empty. *)
Theorem OnPublish_keeps_stale_bytes :
  has_flag (Z.lor O_CREATE O_WRONLY) O_TRUNC = false
  ∧ files Wire.stale_world !! "received/stream1.flv"%string
    = Some (replicate 20 xff)
  ∧ (OnPublish 0 "stream1" Wire.stale).1.1 = Returns None
  ∧ files (world (OnPublish 0 "stream1" Wire.stale).1.2)
      !! "received/stream1.flv"%string
    = Some (EncodeHeader (Z.lor FlagsAudio FlagsVideo) ++ replicate 7 xff)
  ∧ files (os_OpenFile "received/stream1.flv"
             (Z.lor (Z.lor O_CREATE O_WRONLY) O_TRUNC) Wire.stale_world).2
      !! "received/stream1.flv"%string
    = Some [].
Proof. repeat split; vm_compute; reflexivity. Qed.

(** C5.  The transform is not bypassed for the AVC packets that are no
    NAL-unit data.  The decoder of the video tag has read the AVC packet
    header already, the packet type with it, and [processFrameWithCV] reads
    the first four bytes of what follows as a packet header once more.  A key
    frame with a sequence header of two bytes decodes with the packet type of
    a sequence header, and [OnVideo] enters the transform on it: the second
    decoding fails and is logged, where the handler with the stage disabled
    logs nothing (the frame itself is written as it came).  A key frame with
    a decoder configuration, which starts with the byte 1, decodes with the
    packet type of a sequence header as well, and the transform takes it for
    NAL-unit data. *)
Theorem OnVideo_sequence_header_enters_stage :
  DecodeVideoData Wire.key_avc_seqhdr
  = Success {| FrameType := FrameTypeKeyFrame; CodecID := CodecIDAVC;
               video_AVCPacketType := AVCPacketTypeSequenceHeader;
               video_CompositionTime := 0;
               video_Data := bytes_NewReader [x01; x64] |}
  ∧ processFrameWithCV [x01; x64] CodecIDAVC = Failure ErrUnexpectedEOF
  ∧ (OnVideo 9 Wire.key_avc_seqhdr Wire.published).2
    = [LogVideoProcessFailed ErrUnexpectedEOF]
  ∧ (OnVideo_stage_disabled 9 Wire.key_avc_seqhdr Wire.published).2 = []
  ∧ (OnVideo 9 Wire.key_avc_seqhdr Wire.published).1
    = (OnVideo_stage_disabled 9 Wire.key_avc_seqhdr Wire.published).1
  ∧ DecodeVideoData Wire.key_avc_config
    = Success {| FrameType := FrameTypeKeyFrame; CodecID := CodecIDAVC;
                 video_AVCPacketType := AVCPacketTypeSequenceHeader;
                 video_CompositionTime := 0;
                 video_Data :=
                   bytes_NewReader [x01; x64; x00; x1f; xff; xe0; x00] |}
  ∧ DecodeAVCVideoPacket
      (bytes_NewReader [x01; x64; x00; x1f; xff; xe0; x00])
    = Success {| AVCPacketType := AVCPacketTypeNALU;
                 CompositionTime := 0x64001f;
                 avc_Data := bytes_NewReader [xff; xe0; x00] |}.
Proof. repeat split; vm_compute; reflexivity. Qed.

(** The scenario of the specification: [stream1] is published, then come one
    script-data tag, one audio tag, one video tag that is no key frame and
    one key frame on which the transform fails.  Every callback returns nil
    and the file holds the header and the four tags in that order, the
    fourth with the payload it came with. *)
Example scenario_stream1 :
  let evs := [EvPublish 0 "stream1"; EvSetDataFrame 0 Wire.script_ok;
              EvAudio 10 Wire.aac_audio; EvVideo 20 Wire.inter_avc;
              EvVideo 30 Wire.key_avc_nalu] in
  (serve evs Wire.fresh).1.1 = Returns [None; None; None; None; None]
  ∧ files (world (serve evs Wire.fresh).1.2) !! "received/stream1.flv"%string
    = Some (Wire.encodeHeader 5
            ++ match Wire.encodeFlvTag
                       {| TagType := TagTypeScriptData; Timestamp := 0;
                          StreamID := 0;
                          Data := IsScriptData
                                    [([x41], [([x42], Wire.AmfBoolean x01)])] |}
               with
               | Success b => b
               | Failure _ => []
               end
            ++ default [] (event_bytes (EvAudio 10 Wire.aac_audio))
            ++ default [] (event_bytes (EvVideo 20 Wire.inter_avc))
            ++ [x09; x00; x00; x07; x00; x00; x1e; x00; x00; x00; x00;
                x17; x01; x00; x00; x00; xaa; xbb; x00; x00; x00; x12])
  ∧ In (LogVideoProcessFailed ErrUnexpectedEOF) (serve evs Wire.fresh).2.
Proof.
  split; [|split]; [vm_compute; reflexivity ..|].
  vm_compute. tauto.
Qed.

(** * More on the recording path *)

Module RecordingPathFacts.
Import Filepath FilepathFacts.
Local Open Scope string_scope.

(** The outer [Join]: below [received/], a rooted path of plain elements is
    taken as it is. *)
Lemma Join_received (es : list string) :
  es ≠ [] → Forall (λ e, is_plain e = true) es →
  Join ["received/"; "/" +:+ strings_Join es]
  = "received" +:+ "/" +:+ strings_Join es.
Proof.
  intros Hne Hes.
  set (J := strings_Join es).
  pose (tl := String Separator
                ("" +:+ String Separator ("" +:+ String Separator J))).
  change (Join ["received/"; "/" +:+ J])
    with (Clean (String "r" ("eceived" +:+ tl))).
  unfold Clean. cbv beta iota zeta.
  change (IsPathSeparator "r") with false. cbv iota.
  change (String "r" ("eceived" +:+ tl)) with ("received" +:+ tl).
  unfold tl. rewrite !split_sep_app_sep. unfold J.
  rewrite split_sep_Join by eauto using Forall_plain_no_sep.
  change (split_sep "received") with ["received"].
  change (split_sep "") with [""].
  simpl fold_left.
  change (clean_step false [] "received") with ["received"].
  change (clean_step false ["received"] "") with ["received"].
  rewrite fold_clean_step_plain by done.
  rewrite rev_app_distr, rev_involutive. simpl rev. simpl app.
  rewrite strings_Join_cons by done.
  destruct (String.eqb _ "") eqn:E; [|done].
  apply String.eqb_eq in E. discriminate E.
Qed.

Lemma flv_plain (l : string) :
  has_sep l = false → is_plain (l +:+ ".flv") = true.
Proof.
  intros Hl. apply is_plain_spec. rewrite has_sep_app, Hl.
  assert (Hlen : String.length (l +:+ ".flv") = String.length l + 4)
    by apply length_append.
  repeat split; try done; intros Heq; rewrite Heq in Hlen; simpl in Hlen; lia.
Qed.

Lemma append_assoc (a b c : string) : (a +:+ b) +:+ c = a +:+ (b +:+ c).
Proof.
  induction a as [|x a IH]; [done|].
  change (String x ((a +:+ b) +:+ c) = String x (a +:+ (b +:+ c))).
  by f_equal.
Qed.

Lemma strings_Join_snoc_app (init : list string) (l x : string) :
  strings_Join (init ++ [l +:+ x]) = strings_Join (init ++ [l]) +:+ x.
Proof.
  induction init as [|i init IH]; [done|].
  destruct init as [|i' init].
  - simpl. by rewrite !append_assoc.
  - change (strings_Join ((i :: i' :: init) ++ [l +:+ x]))
      with (i +:+ "/" +:+ strings_Join ((i' :: init) ++ [l +:+ x])).
    rewrite IH. simpl. by rewrite !append_assoc.
Qed.

(** The inner [Join], with the shape of its last element. *)
Lemma Join_root_flv (name : string) :
  ∃ (init : list string) (l : string),
    Forall (λ e, is_plain e = true) init ∧ has_sep l = false
    ∧ Join ["/"; name +:+ ".flv"]
      = "/" +:+ strings_Join (init ++ [l +:+ ".flv"]).
Proof.
  destruct (split_sep_app_plain name ".flv" eq_refl) as (init & l & Hn & Hnf).
  set (out := fold_left (clean_step true) ("" :: "" :: init) []).
  pose proof (split_sep_no_sep name) as Hsep. rewrite Hn in Hsep.
  apply Forall_app in Hsep as [Hinit Hl].
  assert (Hl' : has_sep l = false) by by inversion Hl.
  assert (Hout : Forall (λ e, is_plain e = true) out).
  { apply fold_clean_step_rooted_plain; [by repeat constructor|done]. }
  exists (rev out), l. split; [by apply Forall_rev|]. split; [done|].
  change (Join ["/"; name +:+ ".flv"])
    with (Clean (String Separator (String Separator (name +:+ ".flv")))).
  unfold Clean. change (IsPathSeparator Separator) with true. cbv iota zeta.
  change (split_sep (String Separator (String Separator (name +:+ ".flv"))))
    with ("" :: "" :: split_sep (name +:+ ".flv")).
  rewrite Hnf.
  change ("" :: "" :: (init ++ [l +:+ ".flv"])%list)
    with (("" :: "" :: init) ++ [l +:+ ".flv"])%list.
  rewrite fold_left_app. fold out. simpl fold_left.
  by rewrite (clean_step_plain _ _ _ (flv_plain l Hl')).
Qed.

(** The inner [Join] on a path of plain elements. *)
Lemma Join_root_plain (gs : list string) :
  gs ≠ [] → Forall (λ e, is_plain e = true) gs →
  Join ["/"; strings_Join gs] = "/" +:+ strings_Join gs.
Proof.
  intros Hne Hgs.
  change (Join ["/"; strings_Join gs])
    with (Clean (String Separator (String Separator (strings_Join gs)))).
  unfold Clean. change (IsPathSeparator Separator) with true. cbv iota zeta.
  change (split_sep (String Separator (String Separator (strings_Join gs))))
    with ("" :: "" :: split_sep (strings_Join gs)).
  rewrite split_sep_Join by eauto using Forall_plain_no_sep.
  simpl fold_left. change (clean_step true [] "") with (@nil string).
  by rewrite fold_clean_step_plain, app_nil_r, rev_involutive.
Qed.

Lemma recording_path_plain_elems (es : list string) (n : string) :
  Forall (λ e, is_plain e = true) es → has_sep n = false →
  recording_path (strings_Join (es ++ [n]))
  = "received" +:+ "/" +:+ strings_Join (es ++ [n +:+ ".flv"]).
Proof.
  intros Hes Hn. unfold recording_path.
  assert (Hgs : Forall (λ e, is_plain e = true) (es ++ [n +:+ ".flv"])).
  { apply Forall_app. split; [done|]. constructor; [by apply flv_plain|done]. }
  assert (Hne : (es ++ [n +:+ ".flv"])%list ≠ []) by by destruct es.
  rewrite <- strings_Join_snoc_app, Join_root_plain by done.
  rewrite Clean_rooted_plain by done. by apply Join_received.
Qed.

(** A relative path of plain elements, with or without a slash at its end,
    is cleaned to the elements. *)
Lemma Clean_received (es tl : list string) :
  Forall (λ e, is_plain e = true) es → tl = [] ∨ tl = [""] →
  Clean (strings_Join (("received" :: es) ++ tl)) = strings_Join ("received" :: es).
Proof.
  intros Hes Htl.
  assert (Hgs : Forall (λ e, is_plain e = true) ("received" :: es))
    by by constructor.
  assert (Hsep : Forall (λ e, has_sep e = false) (("received" :: es) ++ tl)).
  { apply Forall_app. split; [by apply Forall_plain_no_sep|].
    by destruct Htl as [-> | ->]; repeat constructor. }
  assert (Hfold : fold_left (clean_step false) (("received" :: es) ++ tl) []
                  = rev ("received" :: es)).
  { rewrite fold_left_app.
    rewrite (fold_clean_step_plain false ("received" :: es) []) by done.
    rewrite app_nil_r. by destruct Htl as [-> | ->]. }
  assert (Hhead : ∃ r, strings_Join (("received" :: es) ++ tl) = String "r" r).
  { destruct (es ++ tl)%list as [|x xs] eqn:E; simpl; rewrite E; by eexists. }
  destruct Hhead as [r Hr].
  pose proof (split_sep_Join (("received" :: es) ++ tl)) as Hsplit.
  rewrite Hr in Hsplit |- *. unfold Clean.
  change (IsPathSeparator "r") with false. cbv iota zeta.
  rewrite Hsplit, Hfold, rev_involutive by done.
  destruct (String.eqb _ "") eqn:E; [|done].
  apply String.eqb_eq in E. by destruct es.
Qed.

(** The directory of a recording below [received]. *)
Lemma Dir_recording (es : list string) (x : string) :
  Forall (λ e, is_plain e = true) es → is_plain x = true →
  Dir (strings_Join ("received" :: es ++ [x])) = strings_Join ("received" :: es).
Proof.
  intros Hes Hx. unfold Dir.
  assert (Hall : Forall (λ e, is_plain e = true) ("received" :: es ++ [x])).
  { constructor; [done|]. apply Forall_app. by split; [|constructor]. }
  rewrite split_sep_Join by eauto using Forall_plain_no_sep.
  change ("received" :: es ++ [x])%list with (("received" :: es) ++ [x])%list.
  rewrite removelast_last. apply Clean_received; auto.
Qed.

End RecordingPathFacts.

Local Open Scope string_scope.

(** X1.  The [Clean] that [OnPublish] applies between its two [Join]s changes
    nothing, and the outer [Join] only puts [received] in front: the recording
    path is [received] followed by [Join("/", name + ".flv")], and it ends in
    [.flv]. *)
Theorem recording_path_is_received_Join (PublishingName : string) :
  recording_path PublishingName
  = "received" +:+ Filepath.Join ["/"; PublishingName +:+ ".flv"]
  ∧ Filepath.Clean (Filepath.Join ["/"; PublishingName +:+ ".flv"])
    = Filepath.Join ["/"; PublishingName +:+ ".flv"]
  ∧ ∃ stem : string, recording_path PublishingName = stem +:+ ".flv".
Proof.
  destruct (RecordingPathFacts.Join_root_flv PublishingName)
    as (init & l & Hinit & Hl & HJ).
  assert (Hes : Forall (λ e, Filepath.is_plain e = true)
                  (init ++ [l +:+ ".flv"])).
  { apply Forall_app. split; [done|].
    constructor; [by apply RecordingPathFacts.flv_plain|done]. }
  assert (Hne : (init ++ [l +:+ ".flv"])%list ≠ []) by by destruct init.
  assert (Hclean : Filepath.Clean (Filepath.Join ["/"; PublishingName +:+ ".flv"])
                   = Filepath.Join ["/"; PublishingName +:+ ".flv"]).
  { rewrite HJ. by apply FilepathFacts.Clean_rooted_plain. }
  assert (Hpath : recording_path PublishingName
                  = "received" +:+ Filepath.Join ["/"; PublishingName +:+ ".flv"]).
  { unfold recording_path. rewrite Hclean, HJ.
    by apply RecordingPathFacts.Join_received. }
  split; [done|]. split; [done|].
  exists ("received" +:+ "/" +:+ Filepath.strings_Join (init ++ [l])).
  rewrite Hpath, HJ, RecordingPathFacts.strings_Join_snoc_app.
  by rewrite !RecordingPathFacts.append_assoc.
Qed.

(** X2.  A publishing name made of plain elements and a last element
    without a separator in it is recorded under its own name: at
    [received/<name>.flv], its directories kept.  With no directories this
    covers every name without a separator, the empty name and the names [.]
    and [..] included. *)
Theorem recording_path_keeps_plain_name (es : list string) (n : string) :
  Forall (λ e, Filepath.is_plain e = true) es →
  Filepath.has_sep n = false →
  recording_path (Filepath.strings_Join (es ++ [n]))
  = "received/" +:+ Filepath.strings_Join (es ++ [n]) +:+ ".flv".
Proof.
  intros Hes Hn.
  rewrite RecordingPathFacts.recording_path_plain_elems by done.
  by rewrite RecordingPathFacts.strings_Join_snoc_app.
Qed.

Lemma recording_path_keeps_plain_name_witness :
  recording_path "stream1" = "received/stream1.flv"
  ∧ recording_path ".." = "received/...flv"
  ∧ recording_path "live/cam/1" = "received/live/cam/1.flv".
Proof.
  split; [|split].
  - apply (recording_path_keeps_plain_name [] "stream1"); [constructor|reflexivity].
  - apply (recording_path_keeps_plain_name [] ".."); [constructor|reflexivity].
  - apply (recording_path_keeps_plain_name ["live"; "cam"] "1");
      [repeat constructor|reflexivity].
Defined.

(** X3.  Distinct publishing names share a recording: a leading [/], [./] or
    [../] in front of a name does not change the path it is recorded at. *)
Theorem recording_path_ignores_leading_dots (PublishingName : string) :
  recording_path ("/" +:+ PublishingName) = recording_path PublishingName
  ∧ recording_path ("./" +:+ PublishingName) = recording_path PublishingName
  ∧ recording_path ("../" +:+ PublishingName) = recording_path PublishingName
  ∧ recording_path ("../../" +:+ PublishingName) = recording_path PublishingName.
Proof. repeat split; reflexivity. Qed.

Local Close Scope string_scope.

(** * Publishing *)

Lemma mkdir_all_open_files (parent elems : list string) (w : World) :
  open_files (mkdir_all parent elems w).2 = open_files w
  ∧ faults (mkdir_all parent elems w).2 = faults w.
Proof.
  revert parent w. induction elems as [|e elems IH]; intros parent w; [done|].
  simpl. destruct (files w !! _); [done|].
  destruct (IH (parent ++ [e]) (set_dirs ({[Filepath.strings_Join (parent ++ [e])]} ∪ dirs w) w))
    as [-> ->]. done.
Qed.

Lemma insert_last {A : Type} (l : list A) (x y : A) :
  <[length l := x]> (l ++ [y]) = l ++ [x].
Proof. rewrite insert_app_r_alt by lia. by rewrite Nat.sub_diag. Qed.

Lemma os_OpenFile_cases (name : string) (flag : Z) (w : World) :
  (∃ err, os_OpenFile name flag w = (Failure err, w))
  ∨ (∃ fs, os_OpenFile name flag w
           = (Success (length (open_files w)),
              set_open_files
                (open_files w
                 ++ [{| f_name := name; f_offset := 0; f_closed := false |}])
                (set_files fs w))
           ∧ is_Some (fs !! name)).
Proof.
  unfold os_OpenFile. destruct (decide (name ∈ dirs w)); [by left; eexists|].
  destruct (_ && _); [by left; eexists|].
  destruct (files w !! name) as [old|] eqn:Hold.
  - destruct (has_flag flag O_TRUNC); right; eexists; (split; [done|]).
    + rewrite lookup_insert_eq. by eexists.
    + by eexists.
  - destruct (has_flag flag O_CREATE); [|by left; eexists].
    right. eexists. split; [done|]. rewrite lookup_insert_eq. by eexists.
Qed.

Section PublishFacts.

Context `{codec : FlvCodec}.

(** [OnPublish], case by case. *)
Lemma OnPublish_eq (timestamp : Z) (name : string) (s : Sys) :
  let p := recording_path name in
  let w0 := (os_MkdirAll "received" (world s)).2 in
  OnPublish timestamp name s
  = (match os_OpenFile p (Z.lor O_CREATE O_WRONLY) w0 with
     | (Failure err, w1) =>
         (Returns (Some (Wrap err "Failed to create flv file")),
          {| hnd := hnd s; world := w1 |})
     | (Success f, w1) =>
         match os_Write f (EncodeHeader (Z.lor FlagsAudio FlagsVideo)) w1 with
         | (Some err, w2) =>
             (Returns (Some (Wrap err "Failed to create flv encoder")),
              {| hnd := {| flvFile := Some f; flvEnc := flvEnc (hnd s) |};
                 world := (os_Close f w2).2 |})
         | (None, w2) =>
             (Returns None,
              {| hnd := {| flvFile := Some f; flvEnc := Some {| enc_w := f |} |};
                 world := w2 |})
         end
     end,
     [LogRecievingStream name; LogSavingTo p]).
Proof.
  intros p w0. unfold OnPublish. run_M. subst w0.
  destruct (os_MkdirAll "received" (world s)) as [e0 w0]. simpl.
  fold p. destruct (os_OpenFile p _ w0) as [[f|err] w1]; run_M; [|done].
  unfold flv_NewEncoder.
  destruct (os_Write f _ w1) as [[err|] w2]; run_M; [|done].
  by destruct (os_Close f w2).
Qed.

(** X4.  [OnPublish] never panics and ends in one of three ways.  It returns
    nil with both fields of the handler set to the file it has just opened,
    the file open behind the header.  Or the open fails: the error is wrapped
    with the file message and the handler, the files and the open files are
    as before.  Or the header cannot be written: the error is wrapped with the
    encoder message, [flvFile] keeps the handle of the new file, now closed,
    [flvEnc] keeps its old value, and the file stays behind at the recording
    path. *)
Theorem OnPublish_outcomes (timestamp : Z) (name : string) (s : Sys) :
  let p := recording_path name in
  let f := length (open_files (world s)) in
  ∃ (r : option error) (s' : Sys),
    OnPublish timestamp name s
    = (Returns r, s', [LogRecievingStream name; LogSavingTo p])
    ∧ match r with
      | None =>
          hnd s' = {| flvFile := Some f; flvEnc := Some {| enc_w := f |} |}
          ∧ open_files (world s')
            = (open_files (world s)
               ++ [{| f_name := p;
                      f_offset := length (EncodeHeader (Z.lor FlagsAudio FlagsVideo));
                      f_closed := false |}])%list
      | Some e =>
          (∃ err, e = Wrap err "Failed to create flv file"
                  ∧ hnd s' = hnd s
                  ∧ files (world s') = files (world s)
                  ∧ open_files (world s') = open_files (world s))
          ∨ (∃ err, e = Wrap err "Failed to create flv encoder"
                    ∧ hnd s' = {| flvFile := Some f; flvEnc := flvEnc (hnd s) |}
                    ∧ open_files (world s')
                      = (open_files (world s)
                         ++ [{| f_name := p; f_offset := 0; f_closed := true |}])%list
                    ∧ is_Some (files (world s') !! p))
      end.
Proof.
  intros p f. rewrite OnPublish_eq. fold p.
  destruct (mkdir_all_open_files []
              (Filepath.split_sep (Filepath.Clean "received")) (world s))
    as [Hof Hfl].
  pose proof (mkdir_all_files []
                (Filepath.split_sep (Filepath.Clean "received")) (world s)) as Hfs.
  fold (os_MkdirAll "received" (world s)) in Hof, Hfl, Hfs.
  set (w0 := (os_MkdirAll "received" (world s)).2) in *.
  destruct (os_OpenFile_cases p (Z.lor O_CREATE O_WRONLY) w0)
    as [[err ->]|(fs & -> & Hp)].
  - eexists _, _. split; [done|]. left. by exists err.
  - rewrite Hof. fold f. unfold os_Write. simpl.
    rewrite list_lookup_middle by done. simpl.
    destruct (faults w0) as [|[|] later]; simpl.
    + eexists _, _. split; [done|]. split; [done|]. simpl.
      apply insert_last.
    + eexists _, _. split; [done|]. right. exists EIO.
      split; [done|]. unfold os_Close. simpl.
      rewrite list_lookup_middle by done. simpl.
      split; [done|]. split; [apply insert_last|done].
    + eexists _, _. split; [done|]. split; [done|]. simpl.
      apply insert_last.
Qed.

Lemma OnPublish_success (timestamp : Z) (name : string) (s s' : Sys)
    (l : list LogEntry) :
  OnPublish timestamp name s = (Returns None, s', l) →
  hnd s' = {| flvFile := Some (length (open_files (world s)));
              flvEnc := Some {| enc_w := length (open_files (world s)) |} |}
  ∧ open_files (world s')
    = (open_files (world s)
       ++ [{| f_name := recording_path name;
              f_offset := length (EncodeHeader (Z.lor FlagsAudio FlagsVideo));
              f_closed := false |}])%list.
Proof.
  rewrite OnPublish_eq.
  destruct (mkdir_all_open_files []
              (Filepath.split_sep (Filepath.Clean "received")) (world s))
    as [Hof _].
  fold (os_MkdirAll "received" (world s)) in Hof.
  set (w0 := (os_MkdirAll "received" (world s)).2) in *.
  destruct (os_OpenFile_cases (recording_path name) (Z.lor O_CREATE O_WRONLY) w0)
    as [[err ->]|(fs & -> & Hp)]; [done|].
  rewrite Hof. unfold os_Write. simpl.
  rewrite list_lookup_middle by done. simpl.
  destruct (faults w0) as [|[|] later]; simpl; [|done|];
    intros [= <- <-]; (split; [done|]); apply insert_last.
Qed.

(** X5.  A second publish on the same handler opens a second file and moves
    both fields of the handler to it; the file of the first publish is never
    closed, not by the publish and not by the [OnClose] after it, which
    closes the second file only. *)
Theorem republish_leaves_first_file_open (t1 t2 : Z) (n1 n2 : string)
    (s0 s1 s2 : Sys) (l1 l2 : list LogEntry) :
  OnPublish t1 n1 s0 = (Returns None, s1, l1) →
  OnPublish t2 n2 s1 = (Returns None, s2, l2) →
  ∃ (f1 : nat) (d1 d2 : File),
    flvFile (hnd s1) = Some f1
    ∧ hnd s2 = {| flvFile := Some (S f1); flvEnc := Some {| enc_w := S f1 |} |}
    ∧ open_files (world (OnClose s2).1.2) !! f1 = Some d1
    ∧ f_name d1 = recording_path n1 ∧ f_closed d1 = false
    ∧ open_files (world (OnClose s2).1.2) !! S f1 = Some d2
    ∧ f_name d2 = recording_path n2 ∧ f_closed d2 = true.
Proof.
  intros [Hh1 Ho1]%OnPublish_success [Hh2 Ho2]%OnPublish_success.
  set (f1 := length (open_files (world s0))) in *.
  assert (Hlen : length (open_files (world s1)) = S f1).
  { rewrite Ho1, length_app. simpl. lia. }
  rewrite Hlen in Hh2.
  rewrite OnClose_eq, Hh2. simpl. unfold os_Close.
  assert (H2 : open_files (world s2) !! S f1
               = Some {| f_name := recording_path n2;
                         f_offset := length (EncodeHeader (Z.lor FlagsAudio FlagsVideo));
                         f_closed := false |}).
  { rewrite Ho2, <- Hlen. by apply list_lookup_middle. }
  assert (H1 : open_files (world s2) !! f1
               = Some {| f_name := recording_path n1;
                         f_offset := length (EncodeHeader (Z.lor FlagsAudio FlagsVideo));
                         f_closed := false |}).
  { rewrite Ho2, lookup_app_l by lia. rewrite Ho1. by apply list_lookup_middle. }
  rewrite H2. simpl.
  eexists f1, _, _. split; [by rewrite Hh1|]. split; [done|].
  split; [by rewrite list_lookup_insert_ne by lia|].
  split; [done|]. split; [done|].
  split; [apply list_lookup_insert_eq; by eapply lookup_lt_Some|done].
Qed.

(** X6.  Once the connection is closed the handler still holds its encoder:
    a script-data, audio or video message that comes after [OnClose] reaches
    the closed file, the write fails with the file-closed error, and the
    callback logs it and returns nil, the handler and the world as they
    were. *)
Theorem messages_after_close_are_dropped (enc : Encoder) (s : Sys) :
  flvEnc (hnd s) = Some enc →
  flvFile (hnd s) = Some (enc_w enc) →
  is_Some (open_files (world s) !! enc_w enc) →
  let s' := (OnClose s).1.2 in
  (∀ (ev : Event) (c : bytes),
     event_bytes ev = Some c →
     ∃ l : list LogEntry,
       dispatch ev s' = (Returns None, s', l)
       ∧ last l = Some (match ev with
                        | EvAudio _ _ => LogAudioWriteFailed ErrClosed
                        | _ => LogVideoWriteFailed ErrClosed
                        end))
  ∧ (∀ (timestamp : Z) (Payload : bytes) (script : ScriptData) (b : bytes),
       DecodeScriptData (bytes_NewReader Payload) = Success script →
       EncodeFlvTag {| TagType := TagTypeScriptData; Timestamp := timestamp;
                       StreamID := 0; Data := IsScriptData script |}
       = Success b →
       OnSetDataFrame timestamp Payload s'
       = (Returns None, s', [LogScriptWriteFailed ErrClosed])).
Proof.
  intros Henc Hfile [d Hd] s'.
  assert (Hs' : s' = {| hnd := hnd s;
                        world := (os_Close (enc_w enc) (world s)).2 |}).
  { unfold s'. by rewrite OnClose_eq, Hfile. }
  destruct (os_Close_closed (enc_w enc) d (world s) Hd) as (d' & Hd' & Hclosed).
  assert (Hw : ∀ (t : FlvTag ScriptData) (b : bytes),
             EncodeFlvTag t = Success b →
             Encoder_Encode (flvEnc (hnd s')) t s'
             = (Returns (Some ErrClosed), s', [])).
  { intros t b Hb. rewrite Hs'. simpl. rewrite Henc. unfold Encoder_Encode.
    rewrite Hb. run_M. unfold os_Write. by rewrite Hd', Hclosed. }
  split.
  - intros ev c Hc. unfold event_bytes in Hc.
    destruct (event_tag ev) as [t|] eqn:Ht; [|done].
    destruct (EncodeFlvTag t) as [b|] eqn:Hb; [|done].
    specialize (Hw t b Hb).
    destruct ev as [| | | |ts payload|ts payload|]; try done; simpl in Ht.
    + unfold dispatch, OnAudio.
      destruct (DecodeAudioData payload) as [audio|]; [|done].
      destruct (io_Copy (audio_Data audio)) as [body|]; [|done].
      injection Ht as <-. run_M. rewrite Hw. by eexists.
    + unfold dispatch, OnVideo.
      destruct (DecodeVideoData payload) as [video|]; [|done].
      destruct (io_Copy (video_Data video)) as [body|]; [|done].
      injection Ht as <-.
      destruct (FrameType video =? FrameTypeKeyFrame)%Z.
      * destruct (processFrameWithCV body (CodecID video)) as [processed|e];
          run_M; rewrite Hw; by eexists.
      * run_M. rewrite Hw. by eexists.
  - intros ts Payload script b Hdec Hb. unfold OnSetDataFrame.
    rewrite Hdec. run_M. by rewrite (Hw _ b Hb).
Qed.

Lemma os_Write_frame (f : nat) (b : bytes) (w : World) :
  dirs (os_Write f b w).2 = dirs w
  ∧ length (open_files (os_Write f b w).2) = length (open_files w).
Proof.
  unfold os_Write. destruct (open_files w !! f) as [d|]; [|done].
  destruct (f_closed d); [done|].
  destruct (faults w) as [|[|] later]; simpl; by rewrite ?length_insert.
Qed.

Lemma os_Close_frame (f : nat) (w : World) :
  dirs (os_Close f w).2 = dirs w
  ∧ length (open_files (os_Close f w).2) = length (open_files w).
Proof.
  unfold os_Close. destruct (open_files w !! f) as [d|]; [|done].
  destruct (f_closed d); simpl; by rewrite ?length_insert.
Qed.

Lemma only_recording_changed_refl (s : Sys) : only_recording_changed s s.
Proof. by repeat split. Qed.

Lemma Encoder_Encode_frame (t : FlvTag ScriptData) (s s1 : Sys)
    (r : outcome (option error)) (l : list LogEntry) :
  Encoder_Encode (flvEnc (hnd s)) t s = (r, s1, l) →
  only_recording_changed s s1.
Proof.
  unfold Encoder_Encode. destruct (flvEnc (hnd s)) as [enc|] eqn:Henc.
  - destruct (EncodeFlvTag t) as [b|err]; run_M.
    + destruct (os_Write_frame (enc_w enc) b (world s)) as [Hd Hl].
      destruct (open_files (world s) !! enc_w enc) as [d|] eqn:Hf.
      * pose proof (os_Write_files (enc_w enc) d b (world s)) as Hfs.
        destruct (os_Write (enc_w enc) b (world s)) as [e w].
        intros [= <- <- <-]. repeat split; try done.
        intros q Hq. apply (Hfs q Hf). intros ->. by eapply Hq.
      * unfold os_Write. rewrite Hf. intros [= <- <- <-].
        destruct s. apply only_recording_changed_refl.
    + intros [= <- <- <-]. apply only_recording_changed_refl.
  - run_M. intros [= <- <- <-]. apply only_recording_changed_refl.
Qed.

(** X7.  Only [OnPublish] sets the fields of the handler, makes directories
    or opens files.  Every other callback leaves the handler, the directories
    and the number of open files as they are, and changes no file but the one
    the encoder writes to. *)
Theorem messages_change_only_the_recording (ev : Event) (s : Sys) :
  (∀ timestamp name, ev ≠ EvPublish timestamp name) →
  only_recording_changed s (dispatch ev s).1.2.
Proof.
  intros Hev. destruct ev as [ts|ts|ts name|ts Payload|ts payload|ts payload|];
    simpl dispatch.
  - apply only_recording_changed_refl.
  - apply only_recording_changed_refl.
  - by destruct (Hev ts name).
  - unfold OnSetDataFrame.
    destruct (DecodeScriptData _) as [script|err];
      [|apply only_recording_changed_refl].
    run_M. destruct (Encoder_Encode _ _ s) as [[r s1] l1] eqn:HE.
    apply Encoder_Encode_frame in HE. by destruct r as [[e|]|].
  - unfold OnAudio.
    destruct (DecodeAudioData payload) as [audio|err];
      [|apply only_recording_changed_refl].
    destruct (io_Copy (audio_Data audio)) as [body|err];
      [|apply only_recording_changed_refl].
    run_M. destruct (Encoder_Encode _ _ s) as [[r s1] l1] eqn:HE.
    apply Encoder_Encode_frame in HE. by destruct r as [[e|]|].
  - unfold OnVideo.
    destruct (DecodeVideoData payload) as [video|err];
      [|apply only_recording_changed_refl].
    destruct (io_Copy (video_Data video)) as [body|err];
      [|apply only_recording_changed_refl].
    destruct (FrameType video =? FrameTypeKeyFrame)%Z;
      [destruct (processFrameWithCV body (CodecID video)) as [processed|e]|];
      run_M; destruct (Encoder_Encode _ _ s) as [[r s1] l1] eqn:HE;
      apply Encoder_Encode_frame in HE; by destruct r as [[e'|]|].
  - unfold mbind, M_bind. rewrite OnClose_eq. simpl.
    destruct (flvFile (hnd s)) as [f|]; [|apply only_recording_changed_refl].
    destruct (os_Close_frame f (world s)) as [Hd Hl].
    repeat split; try done. intros q _. simpl. by rewrite os_Close_files.
Qed.

Lemma no_faults_pred (n : nat) (w : World) : no_faults (S n) w → no_faults n w.
Proof.
  unfold no_faults. intros H.
  replace (take n (faults w)) with (take n (take (S n) (faults w))).
  - by apply Forall_take.
  - rewrite take_take. f_equal. lia.
Qed.

(** An audio or video message that decodes adds its tag to the recording; a
    connect, a create-stream and script data that does not decode add
    nothing. *)
Lemma message_appends (path : string) (written c : bytes) (ev : Event)
    (n : nat) (s : Sys) :
  recording path written s → no_faults (S n) (world s) →
  message_bytes ev = Some c →
  ∃ (s' : Sys) (l : list LogEntry),
    dispatch ev s = (Returns None, s', l)
    ∧ recording path (written ++ c) s' ∧ no_faults n (world s').
Proof.
  intros Hrec Hnf Hc.
  assert (Hnothing : ∀ l, c = [] →
            ∃ (s' : Sys) (l' : list LogEntry),
              (Returns (@None error), s, l) = (Returns None, s', l')
              ∧ recording path (written ++ c) s' ∧ no_faults n (world s')).
  { intros l ->. exists s, l. rewrite app_nil_r.
    split; [done|]. split; [done|]. by apply no_faults_pred. }
  destruct ev as [ts|ts|ts name|ts Payload|ts payload|ts payload|];
    simpl in Hc; try done.
  - injection Hc as <-. by apply Hnothing.
  - injection Hc as <-. by apply Hnothing.
  - simpl dispatch. unfold OnSetDataFrame.
    destruct (DecodeScriptData _) as [script|err]; [done|].
    injection Hc as <-. by apply Hnothing.
  - by apply dispatch_appends.
  - by apply dispatch_appends.
Qed.

(** X8.  While a session records, connects, create-streams, script data that
    does not decode and audio and video messages that decode may come in any
    order: as long as the file takes the writes, every callback returns nil
    and the file grows by the tags of the audio and video messages, in the
    order they came; the other messages leave no trace in the file. *)
Theorem recording_grows_by_messages (path : string) (written : bytes)
    (evs : list Event) (chunks : list bytes) (s : Sys) :
  recording path written s →
  Forall2 (λ ev c, message_bytes ev = Some c) evs chunks →
  no_faults (length evs) (world s) →
  ∃ (s' : Sys) (l : list LogEntry),
    serve evs s = (Returns (replicate (length evs) None), s', l)
    ∧ recording path (written ++ concat chunks) s'.
Proof.
  intros Hrec Hevs. revert written s Hrec.
  induction Hevs as [|ev c evs chunks Hc _ IH]; intros written s Hrec Hnf.
  - exists s, []. split; [done|]. simpl. by rewrite app_nil_r.
  - destruct (message_appends path written c ev (length evs) s Hrec Hnf Hc)
      as (s1 & l1 & Hd & Hrec1 & Hnf1).
    destruct (IH (written ++ c) s1 Hrec1 Hnf1) as (s2 & l2 & Hs & Hrec2).
    exists s2, (l1 ++ l2 ++ []). split.
    + cbn [serve]. unfold mbind, M_bind at 1. rewrite Hd.
      unfold mbind, M_bind, mret, M_ret. by rewrite Hs.
    + simpl. by rewrite app_assoc.
Qed.

(** X9.  The three stages of the transform are placeholders: with a codec
    whose AVC packet encoder gives back what its decoder read,
    [processFrameWithCV] returns the frame it was given whenever it returns
    one, and [OnVideo] returns and leaves the handler and the world exactly
    as the handler without the transform does, on every payload. *)
Theorem placeholder_stages_change_nothing :
  (∀ (frameData body : bytes) (avc : AVCVideoPacket),
     DecodeAVCVideoPacket (bytes_NewReader frameData) = Success avc →
     io_ReadAll (avc_Data avc) = Success body →
     EncodeAVCVideoPacket
       {| AVCPacketType := AVCPacketType avc;
          CompositionTime := CompositionTime avc;
          avc_Data := bytes_NewReader body |}
     = Success frameData) →
  (∀ (frameData out : bytes) (codecID : Z),
     processFrameWithCV frameData codecID = Success out → out = frameData)
  ∧ (∀ (timestamp : Z) (payload : Reader) (s : Sys),
       (OnVideo timestamp payload s).1
       = (OnVideo_stage_disabled timestamp payload s).1).
Proof.
  intros Hlaw.
  assert (Hid : ∀ (frameData out : bytes) (codecID : Z),
            processFrameWithCV frameData codecID = Success out →
            out = frameData).
  { intros frameData out codecID. unfold processFrameWithCV.
    destruct (codecID =? CodecIDAVC)%Z; [|by intros [= <-]].
    destruct (DecodeAVCVideoPacket _) as [avc|] eqn:Hdec; [|done].
    destruct (AVCPacketType avc =? AVCPacketTypeNALU)%Z; [|by intros [= <-]].
    unfold extractFrameFromNALU, applyComputerVision, packFrameToNALU.
    destruct (io_ReadAll (avc_Data avc)) as [body|] eqn:Hbody; [|done].
    rewrite (Hlaw _ _ _ Hdec Hbody). by intros [= <-]. }
  split; [exact Hid|].
  intros ts payload s. unfold OnVideo, OnVideo_stage_disabled.
  destruct (DecodeVideoData payload) as [video|]; [|done].
  destruct (io_Copy (video_Data video)) as [body|]; [|done].
  destruct (FrameType video =? FrameTypeKeyFrame)%Z.
  - destruct (processFrameWithCV body (CodecID video)) as [out|e] eqn:Hp.
    + apply Hid in Hp as ->. run_M.
      by destruct (Encoder_Encode _ _ s) as [[[[e'|]|] s1] l1].
    + run_M. by destruct (Encoder_Encode _ _ s) as [[[[e'|]|] s1] l1].
  - run_M. by destruct (Encoder_Encode _ _ s) as [[[[e'|]|] s1] l1].
Qed.

End PublishFacts.

(** * Directories *)

Lemma os_MkdirAll_received (w : World) :
  (os_MkdirAll "received" w).2 = w
  ∨ (os_MkdirAll "received" w).2 = set_dirs ({["received"%string]} ∪ dirs w) w.
Proof.
  unfold os_MkdirAll.
  change (Filepath.split_sep (Filepath.Clean "received")) with ["received"%string].
  simpl. destruct (files w !! _); [by left|by right].
Qed.

(** X10.  [OnPublish] makes the directory [received] and no other: a name
    with a directory in front is recorded below [received/<directory>], and
    unless that directory is there already the publish fails with the file
    message, the handler, the files and the open files as before. *)
Theorem OnPublish_needs_the_directory `{codec : FlvCodec}
    (timestamp : Z) (es : list string) (d n : string) (s : Sys) :
  Forall (λ e, Filepath.is_plain e = true) (es ++ [d]) →
  Filepath.has_sep n = false →
  Filepath.strings_Join ("received" :: es ++ [d]) ∉ dirs (world s) →
  ∃ (err : error) (s' : Sys) (l : list LogEntry),
    OnPublish timestamp (Filepath.strings_Join (es ++ [d; n])) s
    = (Returns (Some (Wrap err "Failed to create flv file")), s', l)
    ∧ hnd s' = hnd s
    ∧ files (world s') = files (world s)
    ∧ open_files (world s') = open_files (world s).
Proof.
  intros Hes Hn Hdir.
  set (name := Filepath.strings_Join (es ++ [d; n])).
  assert (Hpath : recording_path name
                  = Filepath.strings_Join
                      ("received" :: (es ++ [d]) ++ [(n +:+ ".flv")%string])).
  { unfold name. replace (es ++ [d; n]) with ((es ++ [d]) ++ [n])
      by by rewrite <- app_assoc.
    rewrite RecordingPathFacts.recording_path_plain_elems by done.
    by destruct (es ++ [d]) eqn:E; [destruct es|]. }
  assert (Hparent : Filepath.Dir (recording_path name)
                    = Filepath.strings_Join ("received" :: es ++ [d])).
  { rewrite Hpath. apply RecordingPathFacts.Dir_recording; [done|].
    by apply RecordingPathFacts.flv_plain. }
  rewrite OnPublish_eq.
  destruct (mkdir_all_open_files []
              (Filepath.split_sep (Filepath.Clean "received")) (world s))
    as [Hof _].
  pose proof (mkdir_all_files []
                (Filepath.split_sep (Filepath.Clean "received")) (world s)) as Hfs.
  fold (os_MkdirAll "received" (world s)) in Hof, Hfs.
  assert (Hdir0 : Filepath.strings_Join ("received" :: es ++ [d])
                  ∉ dirs (os_MkdirAll "received" (world s)).2).
  { destruct (os_MkdirAll_received (world s)) as [-> | ->]; [done|].
    simpl. intros [Heq%elem_of_singleton|?]%elem_of_union; [|done].
    apply (f_equal String.length) in Heq.
    destruct es as [|e es]; simpl in Heq.
    - inversion Hes as [|? ? Hd _]; subst.
      apply FilepathFacts.is_plain_spec in Hd as (Hd & _).
      rewrite !FilepathFacts.length_append in Heq. simpl in Heq. lia.
    - rewrite !FilepathFacts.length_append in Heq. simpl in Heq. lia. }
  set (w0 := (os_MkdirAll "received" (world s)).2) in *.
  assert (Hopen : ∃ err, os_OpenFile (recording_path name)
                           (Z.lor O_CREATE O_WRONLY) w0 = (Failure err, w0)).
  { unfold os_OpenFile.
    destruct (decide (recording_path name ∈ dirs w0)); [by eexists|].
    rewrite Hparent, bool_decide_eq_false_2 by done.
    assert (Hdot : String.eqb (Filepath.strings_Join ("received" :: es ++ [d])) "."
                   = false).
    { apply String.eqb_neq. by destruct es. }
    rewrite Hdot. by eexists. }
  destruct Hopen as [err ->].
  by eexists err, _, _.
Qed.

(** * vision.go *)

Lemma Gocv_Close_last (rs tl : list Gocv.Resource) (x : Gocv.Resource)
    (cs : gset string) (out : list string) :
  Gocv.Close (length rs)
    {| Gocv.resources := rs ++ x :: tl; Gocv.cascade_files := cs;
       Gocv.stdout := out |}
  = {| Gocv.resources :=
         rs ++ {| Gocv.r_kind := Gocv.r_kind x; Gocv.r_closed := true |} :: tl;
       Gocv.cascade_files := cs; Gocv.stdout := out |}.
Proof.
  unfold Gocv.Close. simpl. rewrite list_lookup_middle by done.
  f_equal. rewrite insert_app_r_alt by lia. by rewrite Nat.sub_diag.
Qed.

(** X11.  [NewVision] defers the [Close] of everything it opens, so the
    [Vision] it returns holds a window and a classifier that are closed
    already, on both of its returns; the matrix it makes is closed as well
    and never stored, [img] stays nil.  Nothing that was open before is
    touched, and the error line is printed exactly when the cascade file
    does not load. *)
Theorem NewVision_returns_closed_resources (g : Gocv.State) :
  let n := length (Gocv.resources g) in
  (NewVision g).1
  = {| window := Some n; img := None; classifier := Some (S (S n));
       outline := {| R := 0; G := 0; B := 255; A := 0 |} |}
  ∧ Gocv.resources (NewVision g).2
    = Gocv.resources g
      ++ [{| Gocv.r_kind := Gocv.IsWindow "Face Detect"; Gocv.r_closed := true |};
          {| Gocv.r_kind := Gocv.IsMat; Gocv.r_closed := true |};
          {| Gocv.r_kind := Gocv.IsCascadeClassifier; Gocv.r_closed := true |}]
  ∧ Gocv.stdout (NewVision g).2
    = Gocv.stdout g
      ++ (if bool_decide
               ("data/haarcascade_frontalface_default.xml"%string
                ∈ Gocv.cascade_files g)
          then []
          else ["Error reading cascade file: data/haarcascade_frontalface_default.xml"%string]).
Proof.
  destruct g as [rs cs out]. intros n. simpl in n.
  unfold NewVision, Gocv.NewWindow, Gocv.NewMat, Gocv.NewCascadeClassifier,
    Gocv.alloc, Gocv.Load, Gocv.Println, Gocv.run_deferred.
  simpl. rewrite !length_app. simpl.
  replace (length rs + 1 + 1) with (S (S n)) by (unfold n; lia).
  replace (length rs + 1) with (S n) by (unfold n; lia).
  set (W := {| Gocv.r_kind := Gocv.IsWindow "Face Detect"; Gocv.r_closed := false |}).
  set (Mt := {| Gocv.r_kind := Gocv.IsMat; Gocv.r_closed := false |}).
  set (C := {| Gocv.r_kind := Gocv.IsCascadeClassifier; Gocv.r_closed := false |}).
  assert (Hclose : ∀ o,
    Gocv.Close n
      (Gocv.Close (S n)
         (Gocv.Close (S (S n))
            {| Gocv.resources := ((rs ++ [W]) ++ [Mt]) ++ [C];
               Gocv.cascade_files := cs; Gocv.stdout := o |}))
    = {| Gocv.resources :=
           rs ++ [{| Gocv.r_kind := Gocv.r_kind W; Gocv.r_closed := true |};
                  {| Gocv.r_kind := Gocv.r_kind Mt; Gocv.r_closed := true |};
                  {| Gocv.r_kind := Gocv.r_kind C; Gocv.r_closed := true |}];
         Gocv.cascade_files := cs; Gocv.stdout := o |}).
  { intros o.
    replace (S (S n)) with (length ((rs ++ [W]) ++ [Mt]))
      by (rewrite !length_app; simpl; unfold n; lia).
    rewrite Gocv_Close_last.
    rewrite <- (app_assoc (rs ++ [W]) [Mt]). simpl.
    replace (S n) with (length (rs ++ [W]))
      by (rewrite !length_app; simpl; unfold n; lia).
    rewrite Gocv_Close_last.
    rewrite <- (app_assoc rs [W]). simpl.
    unfold n. by rewrite Gocv_Close_last. }
  destruct (bool_decide _); simpl; rewrite Hclose; simpl;
    by rewrite ?app_nil_r.
Qed.

(** * The wire codec *)

Module WireFacts.
Import Wire.

Lemma Z_of_byte_range (b : byte) : (0 ≤ Z_of_byte b < 256)%Z.
Proof.
  unfold Z_of_byte. pose proof (Byte.to_N_bounded b) as H. lia.
Qed.

Lemma byte_of_Z_of_byte (b : byte) (k : Z) :
  byte_of_Z (Z_of_byte b + 256 * k) = b.
Proof.
  unfold byte_of_Z.
  replace ((Z_of_byte b + 256 * k) mod 256)%Z with (Z_of_byte b).
  - unfold Z_of_byte. by rewrite N2Z.id, Byte.of_to_N.
  - pose proof (Z_of_byte_range b). symmetry.
    rewrite (Z.mul_comm 256 k), Z.mod_add by lia.
    by apply Z.mod_small.
Qed.

Lemma byte_of_Z_of_byte0 (b : byte) : byte_of_Z (Z_of_byte b) = b.
Proof.
  pose proof (byte_of_Z_of_byte b 0) as H. by rewrite Z.add_0_r in H.
Qed.

Lemma be_encode_3_decode (b1 b2 b3 : byte) :
  be_encode 3 (be_decode [b1; b2; b3]) = [b1; b2; b3].
Proof.
  unfold be_encode, be_decode. simpl.
  pose proof (Z_of_byte_range b1). pose proof (Z_of_byte_range b2).
  pose proof (Z_of_byte_range b3).
  rewrite !Z.shiftr_div_pow2 by lia.
  change (2 ^ (8 * Z.of_nat 2))%Z with 65536%Z.
  change (2 ^ (8 * Z.of_nat 1))%Z with 256%Z.
  set (z := (((0 * 256 + Z_of_byte b1) * 256 + Z_of_byte b2) * 256
             + Z_of_byte b3)%Z).
  assert (H16 : (z / 65536 = Z_of_byte b1)%Z).
  { symmetry. apply Z.div_unique with
      (r := (Z_of_byte b2 * 256 + Z_of_byte b3)%Z); unfold z; lia. }
  assert (H8 : (z / 256 = Z_of_byte b2 + 256 * Z_of_byte b1)%Z).
  { symmetry. apply Z.div_unique with (r := Z_of_byte b3); unfold z; lia. }
  assert (H0' : (z = Z_of_byte b3
                     + 256 * (Z_of_byte b2 + 256 * Z_of_byte b1))%Z)
    by (unfold z; lia).
  rewrite H16, H8. rewrite H0'.
  change (2 ^ (8 * Z.of_nat 0))%Z with 1%Z. rewrite Z.div_1_r.
  by rewrite byte_of_Z_of_byte0, !byte_of_Z_of_byte.
Qed.

(** The AVC packet encoder gives back the bytes the decoder read. *)
Lemma AVCVideoPacket_roundtrip (frameData body : bytes) (avc : AVCVideoPacket) :
  decodeAVCVideoPacket (bytes_NewReader frameData) = Success avc →
  io_ReadAll (avc_Data avc) = Success body →
  encodeAVCVideoPacket
    {| AVCPacketType := AVCPacketType avc;
       CompositionTime := CompositionTime avc;
       avc_Data := bytes_NewReader body |}
  = Success frameData.
Proof.
  unfold decodeAVCVideoPacket, io_ReadAtLeast. simpl.
  destruct frameData as [|b0 [|b1 [|b2 [|b3 rest]]]]; try done.
  simpl. intros [= <-]. simpl. intros [= <-].
  unfold encodeAVCVideoPacket. simpl io_ReadAll. cbv iota beta.
  cbn [AVCPacketType CompositionTime].
  change (drop 1 [b0; b1; b2; b3]) with [b1; b2; b3].
  rewrite be_encode_3_decode.
  simpl nth. by rewrite byte_of_Z_of_byte0.
Qed.

End WireFacts.

(** * Publishing over an old recording *)

(** X12.  A publish does not empty the file it records to.  Over a file that
    is there already it succeeds all the same, and afterwards the file is the
    header followed by what the old file held behind the header's length:
    nothing of an old recording that was longer than the header is lost. *)
Theorem OnPublish_overwrites_in_place `{codec : FlvCodec}
    (timestamp : Z) (name : string) (old : bytes) (s s' : Sys)
    (l : list LogEntry) :
  files (world s) !! recording_path name = Some old →
  OnPublish timestamp name s = (Returns None, s', l) →
  files (world s') !! recording_path name
  = Some (EncodeHeader (Z.lor FlagsAudio FlagsVideo)
          ++ drop (length (EncodeHeader (Z.lor FlagsAudio FlagsVideo))) old).
Proof.
  intros Hold. rewrite OnPublish_eq.
  pose proof (mkdir_all_files []
                (Filepath.split_sep (Filepath.Clean "received")) (world s)) as Hfs.
  fold (os_MkdirAll "received" (world s)) in Hfs.
  set (w0 := (os_MkdirAll "received" (world s)).2) in *.
  rewrite <- Hfs in Hold.
  destruct (os_OpenFile (recording_path name) _ w0) as [[f|err] w1] eqn:Hopen;
    [|done].
  apply os_OpenFile_Success in Hopen as (Hf & _ & _ & Hkeep).
  specialize (Hkeep eq_refl old Hold).
  unfold os_Write. rewrite Hf. simpl.
  destruct (faults w1) as [|[|] later]; simpl; [|done|];
    intros [= <- <-]; simpl; by rewrite lookup_insert_eq, Hkeep.
Qed.

Lemma OnPublish_overwrites_in_place_witness :
  files (world (OnPublish 0 "stream1" Wire.stale).1.2)
    !! "received/stream1.flv"%string
  = Some (Wire.encodeHeader 5 ++ replicate 7 xff).
Proof.
  apply (OnPublish_overwrites_in_place (codec := Wire.codec) 0 "stream1"
           (replicate 20 xff) Wire.stale
           (OnPublish 0 "stream1" Wire.stale).1.2
           (OnPublish 0 "stream1" Wire.stale).2).
  - vm_compute. reflexivity.
  - vm_compute. reflexivity.
Defined.

(** * The extras on the wire codec *)

(** [stream1] is published, then [stream2]: the first file stays open. *)
Lemma republish_leaves_first_file_open_witness :
  ∃ (f1 : nat) (d1 d2 : File),
    flvFile (hnd Wire.published) = Some f1
    ∧ hnd (OnPublish 1 "stream2" Wire.published).1.2
      = {| flvFile := Some (S f1); flvEnc := Some {| enc_w := S f1 |} |}
    ∧ open_files
        (world (OnClose (OnPublish 1 "stream2" Wire.published).1.2).1.2) !! f1
      = Some d1
    ∧ f_name d1 = recording_path "stream1" ∧ f_closed d1 = false
    ∧ open_files
        (world (OnClose (OnPublish 1 "stream2" Wire.published).1.2).1.2) !! S f1
      = Some d2
    ∧ f_name d2 = recording_path "stream2" ∧ f_closed d2 = true.
Proof.
  apply (republish_leaves_first_file_open (codec := Wire.codec) 0 1
           "stream1" "stream2" Wire.fresh Wire.published
           (OnPublish 1 "stream2" Wire.published).1.2
           (OnPublish 0 "stream1" Wire.fresh).2
           (OnPublish 1 "stream2" Wire.published).2).
  - vm_compute. reflexivity.
  - vm_compute. reflexivity.
Defined.

(** A video frame after the close is dropped with a log line. *)
Lemma messages_after_close_are_dropped_witness :
  ∃ l : list LogEntry,
    dispatch (EvVideo 3 Wire.inter_avc) Wire.closed
    = (Returns None, Wire.closed, l)
    ∧ last l = Some (LogVideoWriteFailed ErrClosed).
Proof.
  destruct (messages_after_close_are_dropped (codec := Wire.codec)
              {| enc_w := 0 |} Wire.published eq_refl eq_refl
              (ex_intro _ _ eq_refl)) as [Hav _].
  apply (Hav (EvVideo 3 Wire.inter_avc)
           (default [] (event_bytes (EvVideo 3 Wire.inter_avc)))).
  reflexivity.
Defined.

(** An audio message keeps the handler and every file but the recording. *)
Lemma messages_change_only_the_recording_witness :
  only_recording_changed Wire.published
    (dispatch (EvAudio 3 Wire.aac_audio) Wire.published).1.2.
Proof.
  apply (messages_change_only_the_recording (codec := Wire.codec)).
  intros timestamp name. discriminate.
Defined.

(** After [stream1] is published and a first audio tag written: a connect, a
    byte of no script data, an inter frame, a create-stream, audio and a key
    frame on which the transform fails. *)
Lemma recording_grows_by_messages_witness :
  ∃ (s' : Sys) (l : list LogEntry),
    serve [EvConnect 0; EvSetDataFrame 1 Wire.script_bad;
           EvVideo 40 Wire.inter_avc; EvCreateStream 2;
           EvAudio 10 Wire.aac_audio; EvVideo 5 Wire.key_avc_nalu]
      (OnAudio 0 Wire.aac_audio Wire.published).1.2
    = (Returns [None; None; None; None; None; None], s', l)
    ∧ recording "received/stream1.flv"
        ((Wire.encodeHeader 5
          ++ default [] (event_bytes (EvAudio 0 Wire.aac_audio)))
         ++ concat
              (map (λ ev, default [] (message_bytes ev))
                 [EvConnect 0; EvSetDataFrame 1 Wire.script_bad;
                  EvVideo 40 Wire.inter_avc; EvCreateStream 2;
                  EvAudio 10 Wire.aac_audio; EvVideo 5 Wire.key_avc_nalu])) s'.
Proof.
  assert (Hpub : recording "received/stream1.flv" (Wire.encodeHeader 5)
                   Wire.published).
  { apply (OnPublish_recording (codec := Wire.codec) 0 "stream1" Wire.fresh
             Wire.published (OnPublish 0 "stream1" Wire.fresh).2).
    vm_compute. reflexivity. }
  destruct (dispatch_appends (codec := Wire.codec) "received/stream1.flv"
              (Wire.encodeHeader 5)
              (default [] (event_bytes (EvAudio 0 Wire.aac_audio)))
              (EvAudio 0 Wire.aac_audio) 0 Wire.published Hpub)
    as (s1 & l1 & Hd & Hrec & _).
  { vm_compute. constructor. }
  { reflexivity. }
  assert (Hs1 : s1 = (OnAudio 0 Wire.aac_audio Wire.published).1.2).
  { change (dispatch (EvAudio 0 Wire.aac_audio) Wire.published)
      with (OnAudio 0 Wire.aac_audio Wire.published) in Hd. by rewrite Hd. }
  rewrite <- Hs1.
  apply (recording_grows_by_messages (codec := Wire.codec)
           "received/stream1.flv"); [exact Hrec| |].
  - repeat constructor.
  - rewrite Hs1. vm_compute. constructor.
Defined.

(** The wire codec's AVC packets round-trip, so on it the transform is the
    identity. *)
Lemma placeholder_stages_change_nothing_witness :
  (∀ (frameData out : bytes) (codecID : Z),
     processFrameWithCV (codec := Wire.codec) frameData codecID = Success out →
     out = frameData)
  ∧ (∀ (timestamp : Z) (payload : Reader) (s : Sys),
       (OnVideo (codec := Wire.codec) timestamp payload s).1
       = (OnVideo_stage_disabled timestamp payload s).1).
Proof.
  exact (placeholder_stages_change_nothing (codec := Wire.codec)
           WireFacts.AVCVideoPacket_roundtrip).
Defined.

(** [live/cam1] cannot be published while [received/live] is missing. *)
Lemma OnPublish_needs_the_directory_witness :
  ∃ (err : error) (s' : Sys) (l : list LogEntry),
    OnPublish 0 "live/cam1" Wire.fresh
    = (Returns (Some (Wrap err "Failed to create flv file")), s', l)
    ∧ hnd s' = hnd Wire.fresh
    ∧ files (world s') = files (world Wire.fresh)
    ∧ open_files (world s') = open_files (world Wire.fresh).
Proof.
  apply (OnPublish_needs_the_directory (codec := Wire.codec) 0 [] "live" "cam1"
           Wire.fresh).
  - repeat constructor.
  - reflexivity.
  - apply not_elem_of_empty.
Defined.
